(** * CRUD controllers of the Blog and Task entities

    A shallow embedding of [src/controller/admin/BlogController.js] and
    [src/controller/device/v1/TaskController.js] (the two files are the same
    template instantiated at two entities) together with the Joi schemas of
    [TaskValidation.js].

    JavaScript values are an inductive type, an [async] action is a
    computation in a state-and-exception monad whose state holds the document
    store and the trace of store calls and responses sent. *)

From Stdlib Require Import String Ascii List ZArith Bool Lia DecimalString.
Import ListNotations.
Open Scope string_scope.
Open Scope list_scope.
Open Scope Z_scope.

Set Implicit Arguments.
Set Warnings "-register-all".

(* ================================================================== *)
(** ** JavaScript values *)

(** Numbers are restricted to integers: no claim depends on fractions, NaN
    or infinities.  Objects are association lists in insertion order.  A
    function value only arises from a prototype lookup ([[].filter]); it
    carries its name and its [length]. *)
Inductive value : Type :=
| VUndefined
| VNull
| VBool (b : bool)
| VNum (n : Z)
| VStr (s : string)
| VArr (items : list value)
| VObj (props : list (string * value))
| VFun (name : string) (arity : Z).

Definition object := list (string * value).

(** Thrown values are [Error] objects; only [error.message] is ever read. *)
Inductive exn : Type := Error (message : string).

Definition message (e : exn) : string := let 'Error m := e in m.

Inductive outcome (A : Type) : Type :=
| Ok (a : A)
| Throw (e : exn).
Arguments Ok {A} a.
Arguments Throw {A} e.

(** [!!v] *)
Definition truthy (v : value) : bool :=
  match v with
  | VUndefined | VNull => false
  | VBool b => b
  | VNum n => negb (n =? 0)
  | VStr s => negb (String.eqb s EmptyString)
  | VArr _ | VObj _ | VFun _ _ => true
  end.

(** [typeof v === 'object' && v !== null] *)
Definition is_object (v : value) : bool :=
  match v with
  | VArr _ | VObj _ => true
  | _ => false
  end.

(** [Array.isArray(v)] *)
Definition Array_isArray (v : value) : bool :=
  match v with VArr _ => true | _ => false end.

(* ------------------------------------------------------------------ *)
(** *** Own properties of an object *)

Fixpoint obj_get (o : object) (k : string) : option value :=
  match o with
  | [] => None
  | (k', v) :: o' => if String.eqb k' k then Some v else obj_get o' k
  end.

(** [o[k] = v]: an existing key keeps its place, a new key goes last. *)
Fixpoint obj_set (k : string) (v : value) (o : object) : object :=
  match o with
  | [] => [(k, v)]
  | (k', v') :: o' =>
      if String.eqb k' k then (k, v) :: o' else (k', v') :: obj_set k v o'
  end.

(** [delete o[k]] *)
Definition obj_delete (k : string) (o : object) : object :=
  filter (fun kv => negb (String.eqb (fst kv) k)) o.

(** [{ ...o, ...u }] *)
Definition obj_assign (o u : object) : object :=
  fold_left (fun acc kv => obj_set (fst kv) (snd kv) acc) u o.

Definition obj_keys (o : object) : list string := map fst o.

(* ------------------------------------------------------------------ *)
(** *** Property access, spread and delete on arbitrary values *)

Definition index_key (i : nat) : string :=
  NilZero.string_of_uint (Nat.to_uint i).

Fixpoint indexed_from (i : nat) (l : list value) : object :=
  match l with
  | [] => []
  | v :: l' => (index_key i, v) :: indexed_from (S i) l'
  end.

Fixpoint chars (s : string) : list value :=
  match s with
  | EmptyString => []
  | String c s' => VStr (String c EmptyString) :: chars s'
  end.

(** The members of [Array.prototype] with their [length]; [filter] is the
    one the controllers can reach ([req.body.filter] on an array body). *)
Definition Array_prototype : object :=
  [("filter", VFun "filter" 1); ("map", VFun "map" 1);
   ("find", VFun "find" 1); ("keys", VFun "keys" 0);
   ("values", VFun "values" 0); ("entries", VFun "entries" 0)].

Definition undefined_or (o : option value) : value :=
  match o with Some v => v | None => VUndefined end.

(** [v.k] for the property names the controllers read ([data], [ids],
    [filter], [query], [where], [options], [isCountOnly], [id], [length],
    [count]); none of them lives on [Object.prototype],
    [String.prototype], [Number.prototype] or [Boolean.prototype]. *)
Definition get_prop (v : value) (k : string) : outcome value :=
  match v with
  | VUndefined =>
      Throw (Error ("Cannot read properties of undefined (reading '" ++ k ++ "')")%string)
  | VNull =>
      Throw (Error ("Cannot read properties of null (reading '" ++ k ++ "')")%string)
  | VObj o => Ok (undefined_or (obj_get o k))
  | VArr l =>
      if String.eqb k "length" then Ok (VNum (Z.of_nat (List.length l)))
      else match obj_get (indexed_from 0 l) k with
           | Some x => Ok x
           | None => Ok (undefined_or (obj_get Array_prototype k))
           end
  | VStr s =>
      if String.eqb k "length" then Ok (VNum (Z.of_nat (String.length s)))
      else Ok (undefined_or (obj_get (indexed_from 0 (chars s)) k))
  | VFun _ a => if String.eqb k "length" then Ok (VNum a) else Ok VUndefined
  | VBool _ | VNum _ => Ok VUndefined
  end.

(** [{ ...v }]: the own enumerable properties of [v]. *)
Definition spread_obj (v : value) : object :=
  match v with
  | VObj o => o
  | VArr l => indexed_from 0 l
  | VStr s => indexed_from 0 (chars s)
  | _ => []
  end.

(** [[ ...v ]]: only iterables can be spread into an array. *)
Definition spread_arr (v : value) : outcome (list value) :=
  match v with
  | VArr l => Ok l
  | VStr s => Ok (chars s)
  | VUndefined => Throw (Error "undefined is not iterable")
  | VNull => Throw (Error "null is not iterable")
  | _ => Throw (Error "object is not iterable")
  end.

(** [delete v[k]] for a key that is not an array index: the value after
    the statement. *)
Definition js_delete (v : value) (k : string) : outcome value :=
  match v with
  | VUndefined | VNull =>
      Throw (Error "Cannot convert undefined or null to object")
  | VObj o => Ok (VObj (obj_delete k o))
  | _ => Ok v
  end.

(** [a || b] *)
Definition js_or (a b : value) : value := if truthy a then a else b.

(* ------------------------------------------------------------------ *)
(** *** Structural equality of values *)

Fixpoint value_eqb (a b : value) {struct a} : bool :=
  let fix items_eqb (l m : list value) {struct l} : bool :=
    match l, m with
    | [], [] => true
    | x :: l', y :: m' => value_eqb x y && items_eqb l' m'
    | _, _ => false
    end in
  let fix props_eqb (l m : object) {struct l} : bool :=
    match l, m with
    | [], [] => true
    | (k, x) :: l', (k', y) :: m' =>
        String.eqb k k' && value_eqb x y && props_eqb l' m'
    | _, _ => false
    end in
  match a, b with
  | VUndefined, VUndefined => true
  | VNull, VNull => true
  | VBool x, VBool y => Bool.eqb x y
  | VNum x, VNum y => x =? y
  | VStr x, VStr y => String.eqb x y
  | VArr l, VArr m => items_eqb l m
  | VObj l, VObj m => props_eqb l m
  | VFun n x, VFun m y => String.eqb n m && (x =? y)
  | _, _ => false
  end.

Definition value_mem (v : value) (l : list value) : bool :=
  existsb (value_eqb v) l.

(* ================================================================== *)
(** ** Joi schemas ([TaskValidation.js]) *)

Module Joi.

(** The field types the entity schemas use. *)
Inductive joiType : Type :=
| string_              (* joi.string() *)
| string_hex24         (* joi.string().regex(/^[0-9a-fA-F]{24}$/) *)
| array_items          (* joi.array().items() *)
| number_integer       (* joi.number().integer() *)
| date_convert         (* joi.date().options({ convert: true }) *)
| boolean_.            (* joi.boolean() *)

Record joiField : Type := mkField {
  field_type : joiType;
  allowed : list value          (* .allow(v) *)
}.

Record joiObject : Type := mkObject {
  keys : list (string * joiField);
  unknown : bool                (* .unknown(true) *)
}.

Definition is_hex_digit (c : ascii) : bool :=
  let n := nat_of_ascii c in
  ((48 <=? n) && (n <=? 57) || (65 <=? n) && (n <=? 70)
   || (97 <=? n) && (n <=? 102))%nat.

(** [/^[0-9a-fA-F]{24}$/.test(s)] *)
Definition is_hex24 (s : string) : bool :=
  Nat.eqb (String.length s) 24 && forallb is_hex_digit (list_ascii_of_string s).

Definition declared (sch : joiObject) (k : string) : bool :=
  existsb (fun kf => String.eqb (fst kf) k) (keys sch).

End Joi.
Import Joi.

(** [schemaKeys] of [TaskValidation.js] *)
Definition nullable (t : joiType) : joiField :=
  mkField t [VNull; VStr EmptyString].    (* .allow(null).allow('') *)

Definition Task_fields : list (string * joiField) :=
  [("title", nullable string_);
   ("description", nullable string_);
   ("attachments", mkField array_items []);
   ("status", mkField number_integer [VNum 0]);
   ("date", nullable date_convert);
   ("dueDate", nullable date_convert);
   ("completedBy", nullable string_hex24);
   ("completedAt", nullable date_convert);
   ("isActive", mkField boolean_ []);
   ("isDeleted", mkField boolean_ [])].

Definition Task_schemaKeys : joiObject := mkObject Task_fields true.

(** [updateSchemaKeys] of [TaskValidation.js] *)
Definition Task_updateSchemaKeys : joiObject :=
  mkObject (Task_fields ++ [("_id", mkField string_hex24 [])]) true.

(** The result of [validateParamsWithJoi] and [validateFilterWithJoi]. *)
Record validation : Type := mkValidation {
  isValid : bool;
  validation_message : string
}.

Definition dquote : string := String (ascii_of_nat 34) EmptyString.
Definition newline : string := String (ascii_of_nat 10) EmptyString.

Section Validator.

(** Whether [new Date(s)] is a valid date; the date parser belongs to the
    JavaScript engine. *)
Variable Date_parses : string -> bool.

Definition type_ok (t : joiType) (v : value) : bool :=
  match t, v with
  | string_, VStr s => negb (String.eqb s EmptyString)
  | string_hex24, VStr s => is_hex24 s
  | array_items, VArr _ => true
  | number_integer, VNum _ => true
  | date_convert, VNum n => Z.abs n <=? 8640000000000000
  | date_convert, VStr s => Date_parses s
  | boolean_, VBool _ => true
  | _, _ => false
  end.

Definition type_name (t : joiType) : string :=
  match t with
  | string_ => "a string"
  | string_hex24 => "a string of 24 hexadecimal digits"
  | array_items => "an array"
  | number_integer => "an integer"
  | date_convert => "a valid date"
  | boolean_ => "a boolean"
  end.

Definition field_ok (f : joiField) (v : value) : bool :=
  value_mem v (allowed f) || type_ok (field_type f) v.

(** The violations of the declared keys: a key that is absent or
    [undefined] is not checked (every key is optional). *)
Definition field_errors (fields : list (string * joiField)) (payload : object)
  : list string :=
  flat_map
    (fun kf =>
       match obj_get payload (fst kf) with
       | None | Some VUndefined => []
       | Some v =>
           if field_ok (snd kf) v then []
           else [(dquote ++ fst kf ++ dquote ++ " must be "
                  ++ type_name (field_type (snd kf)))%string]
       end)
    fields.

(** The violations of the keys the schema does not declare: none under
    [.unknown(true)]. *)
Definition unknown_errors (sch : joiObject) (payload : object) : list string :=
  if unknown sch then []
  else flat_map
         (fun k => if declared sch k then []
                   else [(dquote ++ k ++ dquote ++ " is not allowed")%string])
         (obj_keys payload).

(** Modelled from the spec: [validateParamsWithJoi] of
    [utils/validateRequest.js], which is not part of the sources.  Section
    4.1: for each declared field present in the payload its type is
    checked; unknown fields are rejected only by a strict schema;
    [isValid] is false with a message aggregating the violations when a
    declared field fails, and true otherwise. *)
Definition validateParamsWithJoi (payload : object) (sch : joiObject)
  : validation :=
  match field_errors (keys sch) payload ++ unknown_errors sch payload with
  | [] => mkValidation true EmptyString
  | errs => mkValidation false (String.concat newline errs)
  end.

End Validator.

(* ================================================================== *)
(** ** Requests, responses and the store interface *)

(** [req.body], [req.params] and [req.user]. *)
Record request : Type := mkRequest {
  body : value;
  params : value;
  user : value
}.

(** The response constructors of the response formatter.  [success] holds
    the [data] member of its argument, the others their [message]. *)
Inductive response : Type :=
| success (data : value)
| validationError (msg : string)
| recordNotFound
| badRequest (msg : option string)
| internalServerError (msg : string).

(** The operations of [dbService]. *)
Module Db.
Inductive op : Type :=
| create | findOne | paginate | count
| updateOne | updateMany | deleteOne | deleteMany.
End Db.

(** What an action does that the outside can see: a call of [dbService]
    with its arguments and what came back, or a response sent. *)
Inductive event : Type :=
| DbCall (op : Db.op) (args : list value) (result : outcome value)
| Sent (r : response).

Definition is_DbCall (ev : event) : bool :=
  match ev with DbCall _ _ _ => true | Sent _ => false end.

Definition db_calls (t : list event) : list event := filter is_DbCall t.

(** The entity a controller is generated for: its model constructor, its
    Joi schemas, and [validateFilterWithJoi] applied to its
    [findFilterKeys] (the flag tells whether the model schema was passed as
    third argument). *)
Record entity : Type := mkEntity {
  Model_new : value -> outcome value;
  schemaKeys : joiObject;
  updateSchemaKeys : joiObject;
  validateFilterWithJoi : value -> bool -> outcome validation
}.

(* ================================================================== *)
(** ** The monad of an action *)

Section Action.

(** The state of the document store. *)
Variable St : Type.

Record world : Type := mkWorld {
    store : St;
    trace : list event
  }.

Definition M (A : Type) : Type := world -> outcome A * world.

Definition ret {A} (a : A) : M A := fun w => (Ok a, w).

Definition bind {A B} (m : M A) (k : A -> M B) : M B :=
  fun w => match m w with
           | (Ok a, w') => k a w'
           | (Throw e, w') => (Throw e, w')
           end.

Definition lift {A} (o : outcome A) : M A := fun w => (o, w).

(** [try { m } catch (error) { h error }] *)
Definition try_catch {A} (m : M A) (h : exn -> M A) : M A :=
  fun w => match m w with
           | (Ok a, w') => (Ok a, w')
           | (Throw e, w') => h e w'
           end.

Definition emit (ev : event) : M unit :=
  fun w => (Ok tt, mkWorld (store w) (trace w ++ [ev])).

(** [res.success(..)], [res.badRequest(..)] and the like: the response is
    sent and is also the value of the call. *)
Definition respond (r : response) : M response :=
  bind (emit (Sent r)) (fun _ => ret r).

Fixpoint mapM {A B} (f : A -> M B) (l : list A) : M (list B) :=
  match l with
  | [] => ret []
  | x :: l' =>
      bind (f x) (fun y => bind (mapM f l') (fun ys => ret (y :: ys)))
  end.

(** [dbService]: an operation applied to its arguments (the model apart)
    returns or throws, and may change the store. *)
Definition dbServiceT : Type := Db.op -> list value -> St -> outcome value * St.

Variable dbService : dbServiceT.

(** [await dbService.op(Model, ...args)] *)
Definition call_db (op : Db.op) (args : list value) : M value :=
  fun w => let (r, s') := dbService op args (store w) in
           (r, mkWorld s' (trace w ++ [DbCall op args r])).

End Action.

Arguments mkWorld {St} store trace.
Arguments ret {St A} a.
Arguments lift {St A} o.
Arguments emit {St} ev.
Arguments respond {St} r.

Declare Scope action_scope.
Delimit Scope action_scope with action.
Notation "x <- m ;; k" := (bind m (fun x => k))
  (at level 61, m at next level, right associativity) : action_scope.
Notation "m ;; k" := (bind m (fun _ => k))
  (at level 61, right associativity) : action_scope.

(* ================================================================== *)
(** ** The twelve actions of a controller *)

Module Controller.
Section Actions.

Variable St : Type.
Variable dbService : dbServiceT St.
(** [ObjectId.isValid] of the [mongodb] driver. *)
Variable ObjectId_isValid : value -> bool.
Variable Date_parses : string -> bool.
Variable E : entity.

Local Open Scope action_scope.

Local Abbreviation action := (request -> M St response) (only parsing).
Local Abbreviation db := (call_db dbService) (only parsing).

(** [catch (error) { return res.internalServerError({ message:error.message }); }] *)
Definition on_error (error : exn) : M St response :=
  respond (internalServerError (message error)).

Definition invalid_parameters (v : validation) : string :=
  ("Invalid values in parameters, " ++ validation_message v)%string.

Definition id_required : string :=
  "Insufficient request parameters! id is required.".

(** [!Array.isArray(v) || v.length < 1] *)
Definition not_nonempty_array (v : value) : bool :=
  match v with
  | VArr l => Z.of_nat (List.length l) <? 1
  | _ => true
  end.

(** The body of the loop of [bulkInsert]:
    [dataToCreate[i] = { ...dataToCreate[i], addedBy: req.user.id }] *)
Definition stamped (req : request) (item : value) : M St value :=
  id <- lift (get_prop (user req) "id") ;;
  ret (VObj (obj_set "addedBy" id (spread_obj item))).

Definition add : action := fun req =>
  try_catch
    (let dataToCreate := spread_obj (js_or (body req) (VObj [])) in
     let validateRequest :=
       validateParamsWithJoi Date_parses dataToCreate (schemaKeys E) in
     if negb (isValid validateRequest) then
       respond (validationError (invalid_parameters validateRequest))
     else
       id <- lift (get_prop (user req) "id") ;;
       let dataToCreate := obj_set "addedBy" id dataToCreate in
       dataToCreate <- lift (Model_new E (VObj dataToCreate)) ;;
       created <- db Db.create [dataToCreate] ;;
       respond (success created))
    on_error.

Definition bulkInsert : action := fun req =>
  try_catch
    (reject <- (if truthy (body req) then
                  data <- lift (get_prop (body req) "data") ;;
                  ret (not_nonempty_array data)
                else ret false) ;;
     if (reject : bool) then respond (badRequest None)
     else
       data <- lift (get_prop (body req) "data") ;;
       dataToCreate <- lift (spread_arr data) ;;
       dataToCreate <- mapM (stamped req) dataToCreate ;;
       created <- db Db.create [VArr dataToCreate] ;;
       count <- (if truthy created then lift (get_prop created "length")
                 else ret (VNum 0)) ;;
       respond (success (VObj [("count", js_or count (VNum 0))])))
    on_error.

Definition findAll : action := fun req =>
  try_catch
    (validateRequest <- lift (validateFilterWithJoi E (body req) true) ;;
     if negb (isValid validateRequest) then
       respond (validationError (validation_message validateRequest))
     else
       q <- lift (get_prop (body req) "query") ;;
       let query := if is_object q then spread_obj q else [] in
       isCountOnly <- lift (get_prop (body req) "isCountOnly") ;;
       if truthy isCountOnly then
         totalRecords <- db Db.count [VObj query] ;;
         respond (success (VObj [("totalRecords", totalRecords)]))
       else
         o <- (if truthy (body req) then lift (get_prop (body req) "options")
               else ret VUndefined) ;;
         let options := if is_object o then spread_obj o else [] in
         found <- db Db.paginate [VObj query; VObj options] ;;
         none <- (if negb (truthy found) then ret true
                  else
                    data <- lift (get_prop found "data") ;;
                    if negb (truthy data) then ret true
                    else
                      len <- lift (get_prop data "length") ;;
                      ret (negb (truthy len))) ;;
         if (none : bool) then respond recordNotFound
         else respond (success found))
    on_error.

Definition get : action := fun req =>
  try_catch
    (id <- lift (get_prop (params req) "id") ;;
     if negb (ObjectId_isValid id) then
       respond (validationError "invalid objectId.")
     else
       let query := [("_id", id)] in
       found <- db Db.findOne [VObj query; VObj []] ;;
       if negb (truthy found) then respond recordNotFound
       else respond (success found))
    on_error.

Definition getCount : action := fun req =>
  try_catch
    (validateRequest <- lift (validateFilterWithJoi E (body req) false) ;;
     if negb (isValid validateRequest) then
       respond (validationError (validation_message validateRequest))
     else
       w <- lift (get_prop (body req) "where") ;;
       let where_ := if is_object w then spread_obj w else [] in
       counted <- db Db.count [VObj where_] ;;
       respond (success (VObj [("count", counted)])))
    on_error.

Definition update : action := fun req =>
  try_catch
    (uid <- lift (get_prop (user req) "id") ;;
     let dataToUpdate := obj_set "updatedBy" uid (spread_obj (body req)) in
     let validateRequest :=
       validateParamsWithJoi Date_parses dataToUpdate (updateSchemaKeys E) in
     if negb (isValid validateRequest) then
       respond (validationError (invalid_parameters validateRequest))
     else
       id <- lift (get_prop (params req) "id") ;;
       let query := [("_id", id)] in
       updated <- db Db.updateOne [VObj query; VObj dataToUpdate] ;;
       if negb (truthy updated) then respond recordNotFound
       else respond (success updated))
    on_error.

Definition bulkUpdate : action := fun req =>
  try_catch
    (f <- (if truthy (body req) then lift (get_prop (body req) "filter")
           else ret (body req)) ;;
     let filter := if truthy f then spread_obj f else [] in
     let dataToUpdate := obj_delete "addedBy" [] in
     data <- (if truthy (body req) then lift (get_prop (body req) "data")
              else ret VUndefined) ;;
     dataToUpdate <-
       (if truthy (body req) && is_object data then
          uid <- lift (get_prop (user req) "id") ;;
          ret (obj_set "updatedBy" uid (spread_obj data))
        else ret dataToUpdate) ;;
     updated <- db Db.updateMany [VObj filter; VObj dataToUpdate] ;;
     if negb (truthy updated) then respond recordNotFound
     else respond (success (VObj [("count", updated)])))
    on_error.

Definition partialUpdate : action := fun req =>
  try_catch
    (id <- lift (get_prop (params req) "id") ;;
     (if negb (truthy id) then
        respond (badRequest (Some id_required)) ;; ret tt
      else ret tt) ;;
     body' <- lift (js_delete (body req) "addedBy") ;;
     uid <- lift (get_prop (user req) "id") ;;
     let dataToUpdate := obj_set "updatedBy" uid (spread_obj body') in
     let validateRequest :=
       validateParamsWithJoi Date_parses dataToUpdate (updateSchemaKeys E) in
     if negb (isValid validateRequest) then
       respond (validationError (invalid_parameters validateRequest))
     else
       id <- lift (get_prop (params req) "id") ;;
       let query := [("_id", id)] in
       updated <- db Db.updateOne [VObj query; VObj dataToUpdate] ;;
       if negb (truthy updated) then respond recordNotFound
       else respond (success updated))
    on_error.

Definition softDelete : action := fun req =>
  try_catch
    (id <- lift (get_prop (params req) "id") ;;
     if negb (truthy id) then respond (badRequest (Some id_required))
     else
       let query := [("_id", id)] in
       uid <- lift (get_prop (user req) "id") ;;
       let updateBody := [("isDeleted", VBool true); ("updatedBy", uid)] in
       updated <- db Db.updateOne [VObj query; VObj updateBody] ;;
       if negb (truthy updated) then respond recordNotFound
       else respond (success updated))
    on_error.

Definition delete : action := fun req =>
  try_catch
    (id <- lift (get_prop (params req) "id") ;;
     if negb (truthy id) then respond (badRequest (Some id_required))
     else
       let query := [("_id", id)] in
       deleted <- db Db.deleteOne [VObj query] ;;
       if negb (truthy deleted) then respond recordNotFound
       else respond (success deleted))
    on_error.

Definition deleteMany : action := fun req =>
  try_catch
    (ids <- lift (get_prop (body req) "ids") ;;
     if negb (truthy ids) || not_nonempty_array ids then
       respond (badRequest None)
     else
       let query := [("_id", VObj [("$in", ids)])] in
       deleted <- db Db.deleteMany [VObj query] ;;
       if negb (truthy deleted) then respond recordNotFound
       else respond (success (VObj [("count", deleted)])))
    on_error.

Definition softDeleteMany : action := fun req =>
  try_catch
    (ids <- lift (get_prop (body req) "ids") ;;
     if negb (truthy ids) || not_nonempty_array ids then
       respond (badRequest None)
     else
       let query := [("_id", VObj [("$in", ids)])] in
       uid <- lift (get_prop (user req) "id") ;;
       let updateBody := [("isDeleted", VBool true); ("updatedBy", uid)] in
       updated <- db Db.updateMany [VObj query; VObj updateBody] ;;
       if negb (truthy updated) then respond recordNotFound
       else respond (success (VObj [("count", updated)])))
    on_error.

End Actions.
End Controller.

(** One invocation of an action: it starts from a store and an empty
    trace. *)
Definition handle {St} (a : request -> M St response) (req : request) (s : St)
  : outcome response * world St :=
  a req (mkWorld s []).

(* ================================================================== *)
(** ** The document store *)

Module MemStore.

(** The documents of one collection, in insertion order, and the counter
    the identifiers are drawn from. *)
Record t : Type := mk {
  docs : list object;
  next_id : N
}.

Definition hex_digit (n : N) : ascii :=
  ascii_of_N (if (n <? 10)%N then 48 + n else 87 + n).

Fixpoint hex_padded (digits : nat) (n : N) (acc : string) : string :=
  match digits with
  | O => acc
  | S d => hex_padded d (n / 16) (String (hex_digit (n mod 16)%N) acc)
  end.

(** A fresh 24-character hexadecimal identifier. *)
Definition fresh_id (n : N) : value := VStr (hex_padded 24 n EmptyString).

(** One condition of a query: a literal is an equality, an array or
    [{ $in: [..] }] is a membership, any other object is compared as it
    is. *)
Definition cond_holds (qv : value) (field : value) : bool :=
  match qv with
  | VArr l => value_mem field l
  | VObj o =>
      match obj_get o "$in" with
      | Some (VArr l) => value_mem field l
      | _ => value_eqb field qv
      end
  | _ => value_eqb field qv
  end.

Definition matches (query : object) (doc : object) : bool :=
  forallb (fun kq => cond_holds (snd kq) (undefined_or (obj_get doc (fst kq))))
          query.

Fixpoint update_first (query data : object) (l : list object)
  : option object * list object :=
  match l with
  | [] => (None, [])
  | d :: l' =>
      if matches query d then
        let d' := obj_assign d data in (Some d', d' :: l')
      else
        let (r, l'') := update_first query data l' in (r, d :: l'')
  end.

Fixpoint remove_first (query : object) (l : list object)
  : option object * list object :=
  match l with
  | [] => (None, [])
  | d :: l' =>
      if matches query d then (Some d, l')
      else let (r, l'') := remove_first query l' in (r, d :: l'')
  end.

Definition count_matching (query : object) (l : list object) : Z :=
  Z.of_nat (List.length (filter (matches query) l)).

Definition null_or (o : option object) : value :=
  match o with Some d => VObj d | None => VNull end.

(** A draft gets an identifier unless it brings one. *)
Definition insert (draft : value) (s : t) : object * t :=
  let d := spread_obj draft in
  match obj_get d "_id" with
  | Some _ => (d, mk (docs s ++ [d]) (next_id s))
  | None =>
      let d' := obj_set "_id" (fresh_id (next_id s)) d in
      (d', mk (docs s ++ [d']) (next_id s + 1))
  end.

Fixpoint insert_all (drafts : list value) (s : t) : list value * t :=
  match drafts with
  | [] => ([], s)
  | x :: l =>
      let (d, s1) := insert x s in
      let (ds, s2) := insert_all l s1 in
      (VObj d :: ds, s2)
  end.

(** Modelled from the spec: [utils/dbService.js], which is not part of the
    sources.  Section 4.3: [create] returns the created record(s) with
    generated identifiers, [findOne] one record or nothing, [paginate] the
    records matching with their total, [count] a number, [updateOne] and
    [deleteOne] the record touched or nothing, [updateMany] and
    [deleteMany] the number of records touched.  An update merges the
    partial record into the stored one; no operation looks at [isDeleted]
    unless the query does.  The paging window of [paginate] is not
    modelled: the page is the whole match. *)
Definition dbService : dbServiceT t := fun op args s =>
  match op, args with
  | Db.create, [VArr drafts] =>
      let (ds, s') := insert_all drafts s in (Ok (VArr ds), s')
  | Db.create, [draft] =>
      let (d, s') := insert draft s in (Ok (VObj d), s')
  | Db.findOne, [VObj query; _] =>
      (Ok (null_or (find (matches query) (docs s))), s)
  | Db.paginate, [VObj query; _] =>
      let found := filter (matches query) (docs s) in
      (Ok (VObj [("data", VArr (map VObj found));
                 ("paginator",
                  VObj [("itemCount", VNum (Z.of_nat (List.length found)))])]),
       s)
  | Db.count, [VObj query] => (Ok (VNum (count_matching query (docs s))), s)
  | Db.updateOne, [VObj query; VObj data] =>
      let (r, l) := update_first query data (docs s) in
      (Ok (null_or r), mk l (next_id s))
  | Db.updateMany, [VObj query; VObj data] =>
      (Ok (VNum (count_matching query (docs s))),
       mk (map (fun d => if matches query d then obj_assign d data else d)
               (docs s))
          (next_id s))
  | Db.deleteOne, [VObj query] =>
      let (r, l) := remove_first query (docs s) in
      (Ok (null_or r), mk l (next_id s))
  | Db.deleteMany, [VObj query] =>
      (Ok (VNum (count_matching query (docs s))),
       mk (filter (fun d => negb (matches query d)) (docs s)) (next_id s))
  | _, _ => (Throw (Error "dbService: bad arguments"), s)
  end.


End MemStore.

(* ================================================================== *)
(** ** The two controllers *)

Section Entities.

Variable St : Type.
Variable dbService : dbServiceT St.
Variable ObjectId_isValid : value -> bool.
Variable Date_parses : string -> bool.

(** [model/Task.js] and [commonFilterValidation.js] are not part of the
    sources: the model constructor and the filter validator stay
    parameters. *)
Variable Task_new : value -> outcome value.
Variable Task_validateFilter : value -> bool -> outcome validation.

Definition Task : entity :=
  mkEntity Task_new Task_schemaKeys Task_updateSchemaKeys Task_validateFilter.

(** [BlogValidation.js] is not part of the sources either. *)
Variable Blog : entity.


Definition addTask := Controller.add dbService Date_parses Task.
Definition bulkInsertTask := Controller.bulkInsert dbService.
Definition findAllTask := Controller.findAll dbService Task.
Definition getTask := Controller.get dbService ObjectId_isValid.
Definition getTaskCount := Controller.getCount dbService Task.
Definition updateTask := Controller.update dbService Date_parses Task.
Definition bulkUpdateTask := Controller.bulkUpdate dbService.
Definition partialUpdateTask := Controller.partialUpdate dbService Date_parses Task.
Definition softDeleteTask := Controller.softDelete dbService.
Definition deleteTask := Controller.delete dbService.
Definition deleteManyTask := Controller.deleteMany dbService.
Definition softDeleteManyTask := Controller.softDeleteMany dbService.

Definition addBlog := Controller.add dbService Date_parses Blog.
Definition bulkInsertBlog := Controller.bulkInsert dbService.
Definition findAllBlog := Controller.findAll dbService Blog.
Definition getBlog := Controller.get dbService ObjectId_isValid.
Definition getBlogCount := Controller.getCount dbService Blog.
Definition updateBlog := Controller.update dbService Date_parses Blog.
Definition bulkUpdateBlog := Controller.bulkUpdate dbService.
Definition partialUpdateBlog := Controller.partialUpdate dbService Date_parses Blog.
Definition softDeleteBlog := Controller.softDelete dbService.
Definition deleteBlog := Controller.delete dbService.
Definition deleteManyBlog := Controller.deleteMany dbService.
Definition softDeleteManyBlog := Controller.softDeleteMany dbService.

End Entities.

(* ================================================================== *)
(** ** Properties of computations and of actions *)

Section Behaviour.

Variable St : Type.

(** The computation only adds to the trace, and a store call that failed
    is the failure of the computation itself. *)
Definition propagates {A} (m : M St A) : Prop :=
  forall w, exists evs,
    trace (snd (m w)) = trace w ++ evs /\
    forall op args e,
      In (DbCall op args (Throw e)) evs -> fst (m w) = Throw e.

(** The response a computation returns is the last thing it did. *)
Definition answers (m : M St response) : Prop :=
  forall w r, fst (m w) = Ok r ->
    exists evs, trace (snd (m w)) = trace w ++ evs ++ [Sent r].

(** An action lets nothing escape: it returns a response, which it has
    sent last, and a failure of the store comes back as an internal error
    with the message of the failure. *)
Definition contained (a : request -> M St response) : Prop :=
  forall req s, exists r evs s',
    handle a req s = (Ok r, mkWorld s' (evs ++ [Sent r])) /\
    forall op args e,
      In (DbCall op args (Throw e)) evs ->
      r = internalServerError (message e).

(** An action that turns a request down with [r] without touching the
    store. *)
Definition turned_down (a : request -> M St response) (req : request)
  (s : St) (r : response) : Prop :=
  handle a req s = (Ok r, mkWorld s [Sent r]).

(** The claim that an action rejects every path identifier that is not a
    string of 24 hexadecimal digits with a validation error, before any
    store call. *)
Definition rejects_malformed_identifier (a : request -> M St response) : Prop :=
  forall req s id,
    get_prop (params req) "id" = Ok (VStr id) ->
    is_hex24 id = false ->
    exists m, turned_down a req s (validationError m).

(** The claim that an action rejects a request whose [key] member is
    absent, not an array or empty as a bad request, before any store
    call. *)
Definition rejects_bad_list (key : string) (a : request -> M St response)
  : Prop :=
  forall req s,
    (forall d, get_prop (body req) key = Ok d ->
               Controller.not_nonempty_array d = true) ->
    turned_down a req s (badRequest None).

End Behaviour.

(** [req.body && req.body.filter ? { ...req.body.filter } : {}] read off
    the request: the filter the caller gave, if any. *)
Definition given_filter (req : request) : object :=
  match get_prop (body req) "filter" with
  | Ok f => if truthy f then spread_obj f else []
  | Throw _ => []
  end.

(** The twelve actions of a controller. *)
Definition actions {St} (dbService : dbServiceT St)
  (ObjectId_isValid : value -> bool) (Date_parses : string -> bool)
  (E : entity) : list (request -> M St response) :=
  [Controller.add dbService Date_parses E;
   Controller.bulkInsert dbService;
   Controller.findAll dbService E;
   Controller.get dbService ObjectId_isValid;
   Controller.getCount dbService E;
   Controller.update dbService Date_parses E;
   Controller.bulkUpdate dbService;
   Controller.partialUpdate dbService Date_parses E;
   Controller.softDelete dbService;
   Controller.delete dbService;
   Controller.deleteMany dbService;
   Controller.softDeleteMany dbService].

(** How an action reports what the store gave back:
    [if (!result) return res.recordNotFound(); return res.success({ data })],
    and the internal error of the [catch] when the store failed. *)
Definition reported (data_of : value -> value) (result : outcome value)
  : response :=
  match result with
  | Ok v => if truthy v then success (data_of v) else recordNotFound
  | Throw e => internalServerError (message e)
  end.

Definition counted (n : value) : value := VObj [("count", n)].

(** One store call and the report of its result: the whole of an
    invocation that got as far as the store. *)
Definition calls_once {St} (dbService : dbServiceT St)
  (a : request -> M St response) (req : request) (s : St)
  (op : Db.op) (args : list value) (data_of : value -> value) : Prop :=
  let result := fst (dbService op args s) in
  handle a req s
  = (Ok (reported data_of result),
     mkWorld (snd (dbService op args s))
             [DbCall op args result; Sent (reported data_of result)]).

(** [{ ...req.body, updatedBy: req.user.id }] *)
Definition update_payload (b uid : value) : object :=
  obj_set "updatedBy" uid (spread_obj b).

(** The actions that take the identifier of one record from the route. *)
Definition by_identifier_actions {St} (dbService : dbServiceT St)
  (ObjectId_isValid : value -> bool) (Date_parses : string -> bool)
  (E : entity) : list (request -> M St response) :=
  [Controller.get dbService ObjectId_isValid;
   Controller.update dbService Date_parses E;
   Controller.partialUpdate dbService Date_parses E;
   Controller.softDelete dbService;
   Controller.delete dbService].

(** The claim that every bulk action rejects a bad list. *)
Definition bulk_actions_reject {St} (dbService : dbServiceT St) : Prop :=
  rejects_bad_list "data" (Controller.bulkInsert dbService) /\
  rejects_bad_list "ids" (Controller.deleteMany dbService) /\
  rejects_bad_list "ids" (Controller.softDeleteMany dbService).

(** Two versions of a record that differ at most in the two fields a soft
    delete writes. *)
Definition same_but_soft_delete (d d' : object) : Prop :=
  forall k, k <> "isDeleted" -> k <> "updatedBy" ->
            obj_get d' k = obj_get d k.

(** The query of the actions that work on one record. *)
Definition by_id_query (id : value) : object := [("_id", id)].

(** The query of the actions that work on a list of records. *)
Definition in_ids_query (ids : value) : object :=
  [("_id", VObj [("$in", ids)])].

(** The update body of a soft delete. *)
Definition soft_delete_body (uid : value) : object :=
  [("isDeleted", VBool true); ("updatedBy", uid)].


(** A record as a soft delete by [uid] leaves it. *)
Definition soft_deleted (uid : value) (d : object) : object :=
  obj_assign d (soft_delete_body uid).

(** [l'] is [l] with the first record the query matches replaced by
    [d']; [d] is that record. *)
Definition first_match_replaced (query : object) (d d' : object)
  (l l' : list object) : Prop :=
  exists before after,
    l = before ++ d :: after /\
    forallb (fun x => negb (MemStore.matches query x)) before = true /\
    MemStore.matches query d = true /\
    l' = before ++ d' :: after.




(** The soft-deleted version of a record: flagged, signed by the caller,
    and otherwise the record. *)
Definition soft_deleted_is_flagged : Prop :=
  forall uid d,
    obj_get (soft_deleted uid d) "isDeleted" = Some (VBool true) /\
    obj_get (soft_deleted uid d) "updatedBy" = Some uid /\
    same_but_soft_delete d (soft_deleted uid d).

(* ------------------------------------------------------------------ *)
(** *** Accounting for store calls and responses *)

(** The responses among the events of a trace, in the order sent. *)
Definition responses (t : list event) : list response :=
  flat_map (fun ev => match ev with Sent r => [r] | DbCall _ _ _ => [] end) t.

Definition is_recordNotFound (r : response) : bool :=
  match r with recordNotFound => true | _ => false end.

Definition is_validationError (r : response) : bool :=
  match r with validationError _ => true | _ => false end.

Definition is_badRequest (r : response) : bool :=
  match r with badRequest _ => true | _ => false end.

Section Accounting.

Variable St : Type.
Variable dbService : dbServiceT St.

(** A computation that leaves the store alone: it calls nothing and the
    store is as it was. *)
Definition quiet {A} (m : M St A) : Prop :=
  forall w,
    store (snd (m w)) = store w /\
    db_calls (trace (snd (m w))) = db_calls (trace w).

(** A computation that goes to the store once at most: either it is as
    if quiet, or it made one call and the store is what that call left. *)
Definition frugal {A} (m : M St A) : Prop :=
  forall w,
    (store (snd (m w)) = store w /\
     db_calls (trace (snd (m w))) = db_calls (trace w))
    \/
    exists op args,
      db_calls (trace (snd (m w)))
      = db_calls (trace w)
        ++ [DbCall op args (fst (dbService op args (store w)))] /\
      store (snd (m w)) = snd (dbService op args (store w)).

(** An action that goes to the store once at most in an invocation. *)
Definition one_call_at_most (a : request -> M St response) : Prop :=
  forall req s,
    let w := snd (handle a req s) in
    (store w = s /\ db_calls (trace w) = [])
    \/
    exists op args,
      db_calls (trace w) = [DbCall op args (fst (dbService op args s))] /\
      store w = snd (dbService op args s).

(** A computation that sends no response. *)
Definition silent {A} (m : M St A) : Prop :=
  forall w, responses (trace (snd (m w))) = responses (trace w).

(** A computation that sends the response it returns and no other, and
    none when it throws. *)
Definition single (m : M St response) : Prop :=
  forall w,
    match m w with
    | (Ok r, w') => responses (trace w') = responses (trace w) ++ [r]
    | (Throw _, w') => responses (trace w') = responses (trace w)
    end.

(** An action that sends exactly one response in an invocation, the one
    it returns. *)
Definition answers_once (a : request -> M St response) : Prop :=
  forall req s,
    exists r, fst (handle a req s) = Ok r /\
              responses (trace (snd (handle a req s))) = [r].

(** A computation all of whose results satisfy [P]. *)
Definition returns_only (P : response -> Prop) (m : M St response) : Prop :=
  forall w r, fst (m w) = Ok r -> P r.

(** An action that never returns a response of the kind [kind]. *)
Definition never_returns (kind : response -> bool)
  (a : request -> M St response) : Prop :=
  forall req s r, fst (handle a req s) = Ok r -> kind r = false.

(** An action whose run does not depend on [req.user]. *)
Definition ignores_user (a : request -> M St response) : Prop :=
  forall b p u u' s,
    handle a (mkRequest b p u) s = handle a (mkRequest b p u') s.

End Accounting.

(** The actions that send one response. *)
Definition actions_but_partialUpdate {St} (dbService : dbServiceT St)
  (ObjectId_isValid : value -> bool) (Date_parses : string -> bool)
  (E : entity) : list (request -> M St response) :=
  [Controller.add dbService Date_parses E;
   Controller.bulkInsert dbService;
   Controller.findAll dbService E;
   Controller.get dbService ObjectId_isValid;
   Controller.getCount dbService E;
   Controller.update dbService Date_parses E;
   Controller.bulkUpdate dbService;
   Controller.softDelete dbService;
   Controller.delete dbService;
   Controller.deleteMany dbService;
   Controller.softDeleteMany dbService].

(** [typeof v === 'object' && v !== null ? { ...v } : {}]: how [findAll]
    and [getCount] read [query], [options] and [where] off the body. *)
Definition object_or_empty (v : value) : object :=
  if is_object v then spread_obj v else [].

(** The drafts [bulkInsert] makes of the items of [req.body.data]. *)
Definition drafts_of (uid : value) (items : list value) : list value :=
  map (fun item => VObj (obj_set "addedBy" uid (spread_obj item))) items.

(** [!found || !found.data || !found.data.length]: the page [paginate]
    gave back holds no record. *)
Definition page_is_empty (found : value) : bool :=
  negb (truthy found)
  || match get_prop found "data" with
     | Ok data =>
         negb (truthy data)
         || match get_prop data "length" with
            | Ok n => negb (truthy n)
            | Throw _ => true
            end
     | Throw _ => true
     end.

(** [created ? created.length : 0], then [count || 0]: the count
    [bulkInsert] reports. *)
Definition created_count (created : value) : value :=
  js_or (if truthy created
         then match get_prop created "length" with
              | Ok n => n
              | Throw _ => VNum 0
              end
         else VNum 0)
        (VNum 0).

(** What an action that reports the result of the store as it is answers:
    a success whatever the result, the internal error when the store
    failed. *)
Definition passed_on (data_of : value -> value) (result : outcome value)
  : response :=
  match result with
  | Ok v => success (data_of v)
  | Throw e => internalServerError (message e)
  end.

(** One store call whose result is passed on. *)
Definition calls_and_passes_on {St} (dbService : dbServiceT St)
  (a : request -> M St response) (req : request) (s : St)
  (op : Db.op) (args : list value) (data_of : value -> value) : Prop :=
  let result := fst (dbService op args s) in
  handle a req s
  = (Ok (passed_on data_of result),
     mkWorld (snd (dbService op args s))
             [DbCall op args result; Sent (passed_on data_of result)]).

(* ------------------------------------------------------------------ *)
(** *** A concrete setting to run the actions in *)

Module Sample.

(** An [ObjectId.isValid] that accepts the strings of 24 hexadecimal
    digits and nothing else. *)
Definition isValid (v : value) : bool :=
  match v with VStr s => is_hex24 s | _ => false end.

Definition Date_parses (s : string) : bool := false.

(** A model constructor that keeps every field. *)
Definition Task_new (v : value) : outcome value := Ok v.

Definition accept_filter (b : value) (with_model : bool) : outcome validation :=
  Ok (mkValidation true EmptyString).

Definition TaskE : entity := Task Task_new accept_filter.

Definition alice : value := VObj [("id", VStr "5f1d7f3e9b1e8a0012345678")].

Definition an_id : string := "64b7f0c2a1d3e4f5a6b7c8d9".

Definition a_task : object :=
  [("_id", VStr an_id); ("title", VStr "write the report");
   ("addedBy", VStr "5f1d7f3e9b1e8a0012340000")].

Definition one_task : MemStore.t := MemStore.mk [a_task] 1.

Definition by_id (id : value) : request :=
  mkRequest (VObj []) (VObj [("id", id)]) alice.

Definition with_body (b : value) : request :=
  mkRequest b (VObj []) alice.

(** A caller who names somebody else as the creator. *)
Definition eve_says : value := VObj [("addedBy", VStr "eve")].

Definition bulk_update_by_eve : request :=
  with_body (VObj [("filter", VObj [("_id", VStr an_id)]); ("data", eve_says)]).

Definition update_by_eve : request :=
  mkRequest eve_says (VObj [("id", VStr an_id)]) alice.

(** A partial update whose route carries no identifier. *)
Definition without_id : request :=
  mkRequest (VObj [("title", VStr "t")]) (VObj []) alice.

Definition db := MemStore.dbService.

(** A filter validator that turns everything down. *)
Definition reject_filter (b : value) (with_model : bool) : outcome validation :=
  Ok (mkValidation false "query is not allowed").

Definition StrictE : entity :=
  mkEntity Task_new Task_schemaKeys Task_updateSchemaKeys reject_filter.

Definition count_only : request :=
  with_body (VObj [("query", VObj [("title", VStr "write the report")]);
                   ("isCountOnly", VBool true)]).

Definition first_page : request :=
  with_body (VObj [("query", VObj [("title", VStr "write the report")])]).

Definition count_all : request := with_body (VObj [("where", VNull)]).

(** A request that went past authentication: [req.user] is not set. *)
Definition anonymous (b p : value) : request := mkRequest b p VUndefined.

Definition two_items : value :=
  VArr [VObj [("title", VStr "a"); ("addedBy", VStr "eve")]; VNum 3].

End Sample.

(* ================================================================== *)
(** * Proofs *)

(** ** Objects *)

Lemma obj_get_set_other (k k' : string) (v : value) (o : object) :
  k' <> k -> obj_get (obj_set k v o) k' = obj_get o k'.
Proof.
  intros Hne. induction o as [|[k0 v0] o IH]; simpl.
  - destruct (String.eqb_spec k k'); congruence.
  - destruct (String.eqb_spec k0 k) as [->|Hk0]; simpl.
    + destruct (String.eqb_spec k k'); congruence.
    + destruct (String.eqb_spec k0 k'); auto.
Qed.

Lemma obj_get_set_same (k : string) (v : value) (o : object) :
  obj_get (obj_set k v o) k = Some v.
Proof.
  induction o as [|[k0 v0] o IH]; simpl.
  - now rewrite String.eqb_refl.
  - destruct (String.eqb_spec k0 k) as [->|Hk0]; simpl.
    + now rewrite String.eqb_refl.
    + destruct (String.eqb_spec k0 k); congruence.
Qed.

Lemma obj_set_present (k : string) (v : value) (o : object) :
  obj_get o k = Some v -> obj_set k v o = o.
Proof.
  induction o as [|[k0 v0] o IH]; simpl; [discriminate|].
  destruct (String.eqb_spec k0 k) as [->|Hk0]; intros H.
  - now inversion H.
  - now rewrite IH.
Qed.

Lemma obj_get_delete_same (k : string) (o : object) :
  obj_get (obj_delete k o) k = None.
Proof.
  induction o as [|[k0 v0] o IH]; simpl; auto.
  destruct (String.eqb_spec k0 k) as [->|Hk0]; simpl; auto.
  destruct (String.eqb_spec k0 k); congruence.
Qed.

Lemma obj_get_delete_other (k k' : string) (o : object) :
  k' <> k -> obj_get (obj_delete k o) k' = obj_get o k'.
Proof.
  intros Hne. induction o as [|[k0 v0] o IH]; simpl; auto.
  destruct (String.eqb_spec k0 k) as [->|Hk0]; simpl.
  - destruct (String.eqb_spec k k'); congruence.
  - destruct (String.eqb_spec k0 k'); auto.
Qed.

(** ** The validator *)

Lemma field_errors_unknown_key Date_parses fields payload k v :
  existsb (fun kf => String.eqb (fst kf) k) fields = false ->
  field_errors Date_parses fields (obj_set k v payload)
  = field_errors Date_parses fields payload.
Proof.
  induction fields as [|[k0 f0] fields IH]; simpl; intros H; auto.
  apply orb_false_iff in H as [Hk0 Hrest].
  apply String.eqb_neq in Hk0.
  rewrite (obj_get_set_other v payload Hk0), (IH Hrest). reflexivity.
Qed.

Lemma field_errors_empty Date_parses fields :
  field_errors Date_parses fields [] = [].
Proof. induction fields as [|[k0 f0] fields IH]; simpl; auto. Qed.

(** C7.  Validation is permissive.  Both schemas of the Task entity are
    declared [.unknown(true)]; under such a schema the empty payload is
    valid, and setting a key the schema does not declare leaves the result
    of the validation of any payload as it was, so a field outside the
    schema never makes a payload invalid. *)
Theorem validation_is_permissive :
  unknown Task_schemaKeys = true /\
  unknown Task_updateSchemaKeys = true /\
  forall Date_parses sch,
    unknown sch = true ->
    validateParamsWithJoi Date_parses [] sch = mkValidation true EmptyString /\
    forall payload k v,
      declared sch k = false ->
      validateParamsWithJoi Date_parses (obj_set k v payload) sch
      = validateParamsWithJoi Date_parses payload sch.
Proof.
  split; [reflexivity|]. split; [reflexivity|].
  intros Date_parses sch Hunknown. split.
  - unfold validateParamsWithJoi, unknown_errors.
    now rewrite field_errors_empty, Hunknown.
  - intros payload k v Hk. unfold validateParamsWithJoi, unknown_errors.
    rewrite Hunknown. unfold declared in Hk.
    now rewrite field_errors_unknown_key.
Qed.

Lemma validation_is_permissive_witness :
  isValid (validateParamsWithJoi Sample.Date_parses
             (obj_set "nickname" (VNum 7) [("title", VStr "x")])
             Task_schemaKeys)
  = true.
Proof.
  destruct validation_is_permissive as (_ & _ & H).
  destruct (H Sample.Date_parses Task_schemaKeys eq_refl) as [_ Hperm].
  rewrite Hperm; reflexivity.
Defined.

(** ** Computations *)

Section Computations.

Variable St : Type.
Variable dbService : dbServiceT St.

Lemma propagates_ret A (a : A) : propagates (@ret St A a).
Proof. intros w. exists []. simpl. rewrite app_nil_r. now split. Qed.

Lemma propagates_lift A (o : outcome A) : propagates (@lift St A o).
Proof. intros w. exists []. simpl. rewrite app_nil_r. now split. Qed.

Lemma propagates_respond r : propagates (@respond St r).
Proof.
  intros w. exists [Sent r]. simpl. split; [reflexivity|].
  intros op args e [H|[]]. discriminate.
Qed.

Lemma propagates_call_db op args : propagates (call_db dbService op args).
Proof.
  intros w. unfold call_db.
  destruct (dbService op args (store w)) as [r s'] eqn:Hcall.
  exists [DbCall op args r]. simpl. split; [reflexivity|].
  intros op' args' e [H|[]]. now inversion H.
Qed.

Lemma propagates_bind A B (m : M St A) (k : A -> M St B) :
  propagates m -> (forall a, propagates (k a)) -> propagates (bind m k).
Proof.
  intros Hm Hk w. unfold bind.
  destruct (Hm w) as (evs1 & Htr1 & Hfail1).
  destruct (m w) as [[a|e] w1] eqn:Hmw; simpl in *.
  - destruct (Hk a w1) as (evs2 & Htr2 & Hfail2).
    exists (evs1 ++ evs2). split.
    + now rewrite Htr2, Htr1, app_assoc.
    + intros op args e Hin. apply in_app_or in Hin as [Hin|Hin].
      * specialize (Hfail1 _ _ _ Hin). discriminate.
      * now apply Hfail2 with op args.
  - exists evs1. split; [assumption|].
    intros op args e' Hin. specialize (Hfail1 _ _ _ Hin).
    now inversion Hfail1.
Qed.

Lemma propagates_mapM A B (f : A -> M St B) (l : list A) :
  (forall a, propagates (f a)) -> propagates (mapM f l).
Proof.
  intros Hf. induction l as [|x l IH]; simpl.
  - apply propagates_ret.
  - apply propagates_bind; [apply Hf|]. intros y.
    apply propagates_bind; [apply IH|]. intros ys. apply propagates_ret.
Qed.

Lemma answers_respond r : answers (@respond St r).
Proof.
  intros w r' H. simpl in H. inversion H; subst. now exists [].
Qed.

Lemma answers_bind A (m : M St A) (k : A -> M St response) :
  propagates m -> (forall a, answers (k a)) -> answers (bind m k).
Proof.
  intros Hm Hk w r. unfold bind.
  destruct (Hm w) as (evs1 & Htr1 & _).
  destruct (m w) as [[a|e] w1] eqn:Hmw; simpl in *; [|discriminate].
  intros Hr. destruct (Hk a w1 r Hr) as (evs2 & Htr2).
  exists (evs1 ++ evs2). now rewrite Htr2, Htr1, !app_assoc.
Qed.

Lemma contained_try_catch (body_of : request -> M St response) :
  (forall req, propagates (body_of req)) ->
  (forall req, answers (body_of req)) ->
  contained (fun req => try_catch (body_of req) (@Controller.on_error St)).
Proof.
  intros Hp Ha req s. unfold handle, try_catch.
  destruct (Hp req (mkWorld s [])) as (evs & Htr & Hfail).
  specialize (Ha req (mkWorld s [])).
  destruct (body_of req (mkWorld s [])) as [[r|e] [s' t']] eqn:Hrun;
    simpl in *; subst t'.
  - destruct (Ha r eq_refl) as (evs' & Hevs). exists r, evs', s'.
    split; [now rewrite Hevs|].
    intros op args e Hin.
    assert (Hin' : In (DbCall op args (Throw e)) evs)
      by (rewrite Hevs; apply in_or_app; now left).
    specialize (Hfail _ _ _ Hin'). discriminate.
  - exists (internalServerError (message e)), evs, s'.
    split; [reflexivity|].
    intros op args e' Hin. specialize (Hfail _ _ _ Hin). now inversion Hfail.
Qed.

End Computations.

Create HintDb behave.

#[local] Hint Resolve propagates_ret propagates_lift propagates_respond
  propagates_call_db answers_respond : behave.

(** One step through the body of an action, along its structure. *)
Ltac behave_step :=
  lazymatch goal with
  | |- propagates (Controller.stamped _ _) => unfold Controller.stamped
  | |- propagates (bind _ _) => apply propagates_bind; [|intro]
  | |- propagates (mapM _ _) => apply propagates_mapM; intro
  | |- answers (bind _ _) => apply answers_bind; [|intro]
  | |- _ (if ?b then _ else _) => destruct b
  | |- _ (let _ := _ in _) => cbv zeta
  | |- _ => solve [auto with behave]
  end.

Ltac behave := intro; cbv beta; repeat behave_step.

(** C8.  Nothing escapes an action.  Each of the twelve actions, on every
    request and every store (whatever the store does, failing included),
    returns a response, which is the last thing it sent; and when a store
    call failed, that response is the internal error carrying the message
    of the failure. *)
Theorem no_failure_escapes St (dbService : dbServiceT St)
  ObjectId_isValid Date_parses E :
  Forall (@contained St) (actions dbService ObjectId_isValid Date_parses E).
Proof.
  unfold actions.
  repeat (apply Forall_cons; [apply contained_try_catch; behave|]).
  apply Forall_nil.
Qed.

(** ** Reading a request *)

Lemma get_prop_truthy (v : value) (k : string) :
  truthy v = true -> exists x, get_prop v k = Ok x.
Proof.
  destruct v; simpl; try discriminate; intros _; eauto.
  - destruct (String.eqb k "length"); eauto.
  - destruct (String.eqb k "length"); eauto.
    destruct (obj_get (indexed_from 0 items) k); eauto.
  - destruct (String.eqb k "length"); eauto.
Qed.

Lemma get_prop_falsy (v : value) (k : string) (x : value) :
  truthy v = false -> k <> "length" -> get_prop v k = Ok x -> x = VUndefined.
Proof.
  destruct v; simpl; try discriminate; intros Hf Hk H.
  - now inversion H.
  - now inversion H.
  - apply negb_false_iff, String.eqb_eq in Hf. subst s.
    apply String.eqb_neq in Hk. rewrite Hk in H. now inversion H.
Qed.

Lemma given_filter_falsy (req : request) :
  truthy (body req) = false -> given_filter req = [].
Proof.
  intros Hf. unfold given_filter.
  destruct (get_prop (body req) "filter") as [f|e] eqn:Hget; [|reflexivity].
  apply get_prop_falsy in Hget; [now subst f|assumption|discriminate].
Qed.

(** ** Bulk update *)

(** C10.  A bulk update without data is not rejected.  When
    [req.body.data] is absent, [null] or not an object, [bulkUpdate] calls
    [updateMany] once, with the filter the caller gave and the empty update
    object, and answers with what the store says: success with the count
    when the result is truthy, not found when it is not (and an internal
    error when the store fails). *)
Theorem bulkUpdate_without_data St (dbService : dbServiceT St) req s :
  (forall d, get_prop (body req) "data" = Ok d -> is_object d = false) ->
  let args := [VObj (given_filter req); VObj []] in
  let result := fst (dbService Db.updateMany args s) in
  let answer :=
    match result with
    | Ok updated => if truthy updated then success (VObj [("count", updated)])
                    else recordNotFound
    | Throw e => internalServerError (message e)
    end in
  handle (Controller.bulkUpdate dbService) req s
  = (Ok answer,
     mkWorld (snd (dbService Db.updateMany args s))
             [DbCall Db.updateMany args result; Sent answer]).
Proof.
  intros Hdata. cbv zeta.
  unfold handle, Controller.bulkUpdate, try_catch, bind, lift, ret.
  destruct (truthy (body req)) eqn:Hbody.
  - destruct (get_prop_truthy (body req) "filter" Hbody) as [f Hf].
    destruct (get_prop_truthy (body req) "data" Hbody) as [d Hd].
    unfold given_filter. rewrite Hf, Hd, (Hdata d Hd). simpl.
    unfold call_db. simpl.
    destruct (dbService Db.updateMany _ s) as [[updated|e] s']; simpl;
      [destruct (truthy updated)|]; reflexivity.
  - rewrite (given_filter_falsy req Hbody), Hbody. simpl.
    unfold call_db. simpl.
    destruct (dbService Db.updateMany _ s) as [[updated|e] s']; simpl;
      [destruct (truthy updated)|]; reflexivity.
Qed.

Lemma bulkUpdate_without_data_witness :
  handle (Controller.bulkUpdate MemStore.dbService)
         (Sample.with_body (VObj [("filter", VObj [("title", VStr "x")]);
                                  ("data", VStr "no object")]))
         Sample.one_task
  = (Ok recordNotFound,
     mkWorld Sample.one_task
       [DbCall Db.updateMany [VObj [("title", VStr "x")]; VObj []]
               (Ok (VNum 0));
        Sent recordNotFound]).
Proof.
  apply (@bulkUpdate_without_data _ MemStore.dbService
           (Sample.with_body (VObj [("filter", VObj [("title", VStr "x")]);
                                    ("data", VStr "no object")]))
           Sample.one_task).
  simpl. intros d H. inversion H. reflexivity.
Defined.

(** ** Creation *)

Ltac run_action :=
  unfold handle, try_catch, bind, lift, ret, respond, emit, call_db,
    Controller.on_error; simpl.

(** Case analysis on the next store call. *)
Ltac split_call :=
  match goal with
  | |- context [?db ?op ?args ?s] =>
      lazymatch type of db with
      | dbServiceT _ => destruct (db op args s) as [[?|?] ?]
      end
  end.

(** Case analysis on whatever the run is stuck on: a test, an outcome or a
    store call. *)
Ltac innermost x :=
  match x with
  | context [match ?y with _ => _ end] => innermost y
  | negb ?y => innermost y
  | _ =>
      lazymatch type of x with
      | bool => destruct x eqn:?
      | outcome _ => destruct x eqn:?
      | (_ * _)%type => destruct x eqn:?
      end
  end.

Ltac case_step :=
  match goal with
  | |- context [match ?x with _ => _ end] => innermost x
  end.

Ltac cases := run_action; repeat (case_step; run_action).

(** Nothing but responses in a trace: no store call is among them. *)
Ltac no_call H :=
  simpl in H;
  repeat (destruct H as [H|H]; [try discriminate|]);
  try contradiction.

Lemma nonempty_array (v : value) :
  Controller.not_nonempty_array v = false ->
  exists items, v = VArr items /\ items <> [].
Proof.
  destruct v as [ | | | | |[|x items]| | ]; simpl; try discriminate.
  intros _. eexists. split; [reflexivity|discriminate].
Qed.

Lemma stamp_all St (req : request) (items : list value) (w : world St) :
  mapM (Controller.stamped req) items w
  = match get_prop (user req) "id", items with
    | Ok id, _ =>
        (Ok (map (fun item => VObj (obj_set "addedBy" id (spread_obj item)))
                 items), w)
    | Throw e, [] => (Ok [], w)
    | Throw e, _ :: _ => (Throw e, w)
    end.
Proof.
  unfold Controller.stamped.
  destruct (get_prop (user req) "id") as [id|e].
  - revert w. induction items as [|x items IH]; intros w; simpl.
    + reflexivity.
    + unfold bind, lift, ret in *. now rewrite IH.
  - destruct items; reflexivity.
Qed.



(** ** Updates and the creator field *)

Lemma index_key_not_addedBy (i : nat) : index_key i <> "addedBy".
Proof. unfold index_key. destruct (Nat.to_uint i); simpl; discriminate. Qed.

Lemma indexed_no_addedBy (l : list value) (i : nat) :
  obj_get (indexed_from i l) "addedBy" = None.
Proof.
  revert i. induction l as [|x l IH]; intros i; simpl; auto.
  destruct (String.eqb_spec (index_key i) "addedBy") as [H|_]; auto.
  now apply index_key_not_addedBy in H.
Qed.

(** X18.  What [delete req.body['addedBy']] achieves in [partialUpdate]:
    the payload of every store call it makes has no [addedBy], whatever
    the body held.  Every store call it makes is an [updateOne]. *)
Lemma partialUpdate_strips_addedBy St (dbService : dbServiceT St)
  Date_parses E req s op args r :
  In (DbCall op args r)
     (trace (snd (handle (Controller.partialUpdate dbService Date_parses E)
                         req s))) ->
  exists query data,
    op = Db.updateOne /\ args = [VObj query; VObj data] /\
    obj_get data "addedBy" = None.
Proof.
  assert (Hstrip : forall b b' uid, js_delete b "addedBy" = Ok b' ->
             obj_get (obj_set "updatedBy" uid (spread_obj b')) "addedBy" = None).
  { intros b b' uid Hb. rewrite obj_get_set_other by discriminate.
    destruct b; simpl in Hb; inversion Hb; subst; simpl; auto.
    - apply indexed_no_addedBy.
    - apply indexed_no_addedBy.
    - apply obj_get_delete_same. }
  unfold Controller.partialUpdate. run_action.
  destruct (get_prop (params req) "id") as [id|e]; simpl;
    [|intros H; no_call H].
  destruct (js_delete (body req) "addedBy") as [b'|e] eqn:Hb.
  - destruct (get_prop (user req) "id") as [uid|e] eqn:Huid.
    + specialize (Hstrip _ _ uid Hb).
      cases; intros H; simpl in H;
        repeat (destruct H as [H|H]; try discriminate; try contradiction);
        inversion H; subst; eauto.
    + cases; intros H; no_call H.
  - cases; intros H; no_call H.
Qed.

(** [bulkUpdate] and [update] on any store: the [addedBy] of the caller's
    data is in the payload the store is called with. *)
Lemma bulkUpdate_passes_addedBy St (dbService : dbServiceT St) req s
  data uid creator :
  truthy (body req) = true ->
  get_prop (body req) "data" = Ok (VObj data) ->
  get_prop (user req) "id" = Ok uid ->
  obj_get data "addedBy" = Some creator ->
  calls_once dbService (Controller.bulkUpdate dbService) req s Db.updateMany
             [VObj (given_filter req); VObj (update_payload (VObj data) uid)]
             counted /\
  obj_get (update_payload (VObj data) uid) "addedBy" = Some creator.
Proof.
  intros Hbody Hdata Huid Hcreator. split.
  - destruct (get_prop_truthy (body req) "filter" Hbody) as [f Hf].
    unfold calls_once, reported, counted, update_payload, given_filter.
    unfold Controller.bulkUpdate. run_action.
    rewrite Hbody, Hf, Hdata, Huid. simpl. cases; reflexivity.
  - unfold update_payload. simpl.
    now rewrite obj_get_set_other by discriminate.
Qed.

Lemma update_passes_addedBy St (dbService : dbServiceT St) Date_parses E
  req s data id uid creator :
  body req = VObj data ->
  get_prop (params req) "id" = Ok id ->
  get_prop (user req) "id" = Ok uid ->
  obj_get data "addedBy" = Some creator ->
  isValid (validateParamsWithJoi Date_parses (update_payload (VObj data) uid)
                                 (updateSchemaKeys E)) = true ->
  calls_once dbService (Controller.update dbService Date_parses E) req s
             Db.updateOne
             [VObj (by_id_query id); VObj (update_payload (VObj data) uid)]
             (fun v => v) /\
  obj_get (update_payload (VObj data) uid) "addedBy" = Some creator.
Proof.
  intros Hbody Hid Huid Hcreator Hvalid. split.
  - unfold calls_once, reported, by_id_query, update_payload in *.
    unfold Controller.update. run_action.
    rewrite Huid, Hbody. simpl. simpl in Hvalid. rewrite Hvalid, Hid.
    cases; reflexivity.
  - unfold update_payload. simpl.
    now rewrite obj_get_set_other by discriminate.
Qed.

(** C1.  [update] and [bulkUpdate] do not strip [addedBy].  On the store
    holding one task created by somebody else, a bulk update and an update
    whose data name [eve] as creator both hand [addedBy: eve] to the store,
    and the creator of the task is overwritten.  ([bulkUpdate] deletes
    [addedBy] from the still empty [dataToUpdate], before the caller's data
    are spread into it; [update] has no such statement.) *)
Theorem update_overwrites_addedBy :
  let payload :=
    VObj [("addedBy", VStr "eve");
          ("updatedBy", VStr "5f1d7f3e9b1e8a0012345678")] in
  let query := VObj [("_id", VStr Sample.an_id)] in
  let after_bulk :=
    snd (handle (bulkUpdateTask Sample.db) Sample.bulk_update_by_eve
                Sample.one_task) in
  let after_update :=
    snd (handle (updateTask Sample.db Sample.Date_parses Sample.Task_new
                            Sample.accept_filter)
                Sample.update_by_eve Sample.one_task) in
  obj_get Sample.a_task "addedBy" = Some (VStr "5f1d7f3e9b1e8a0012340000") /\
  db_calls (trace after_bulk)
  = [DbCall Db.updateMany [query; payload] (Ok (VNum 1))] /\
  map (fun d => obj_get d "addedBy") (MemStore.docs (store after_bulk))
  = [Some (VStr "eve")] /\
  (exists updated,
      db_calls (trace after_update)
      = [DbCall Db.updateOne [query; payload] (Ok updated)]) /\
  map (fun d => obj_get d "addedBy") (MemStore.docs (store after_update))
  = [Some (VStr "eve")].
Proof.
  cbv zeta. repeat split; try reflexivity.
  eexists. vm_compute. reflexivity.
Qed.

(** [partialUpdate] without an identifier, on any store: the bad request
    is followed by the store call and a second response. *)
Lemma partialUpdate_without_id St (dbService : dbServiceT St) Date_parses E
  req s id body' uid :
  get_prop (params req) "id" = Ok id ->
  truthy id = false ->
  js_delete (body req) "addedBy" = Ok body' ->
  get_prop (user req) "id" = Ok uid ->
  isValid (validateParamsWithJoi Date_parses (update_payload body' uid)
                                 (updateSchemaKeys E)) = true ->
  let args := [VObj (by_id_query id); VObj (update_payload body' uid)] in
  let result := fst (dbService Db.updateOne args s) in
  handle (Controller.partialUpdate dbService Date_parses E) req s
  = (Ok (reported (fun v => v) result),
     mkWorld (snd (dbService Db.updateOne args s))
       [Sent (badRequest (Some Controller.id_required));
        DbCall Db.updateOne args result;
        Sent (reported (fun v => v) result)]).
Proof.
  intros Hid Habsent Hbody Huid Hvalid. cbv zeta.
  unfold reported, by_id_query, update_payload in *.
  unfold Controller.partialUpdate. run_action.
  rewrite Hid, Habsent, Hbody, Huid. simpl. rewrite Hvalid. simpl.
  cases; reflexivity.
Qed.

(** C3.  [partialUpdate] goes on after the bad request.  With no
    identifier in the route it sends the bad request, then validates the
    payload all the same and calls [updateOne] with [_id: undefined], and
    sends a second response.  (The [return] that [softDelete] and [delete]
    have before [res.badRequest] is missing.) *)
Theorem partialUpdate_continues_without_id :
  handle (partialUpdateTask Sample.db Sample.Date_parses Sample.Task_new
                            Sample.accept_filter)
         Sample.without_id Sample.one_task
  = (Ok recordNotFound,
     mkWorld Sample.one_task
       [Sent (badRequest (Some Controller.id_required));
        DbCall Db.updateOne
          [VObj [("_id", VUndefined)];
           VObj [("title", VStr "t");
                 ("updatedBy", VStr "5f1d7f3e9b1e8a0012345678")]]
          (Ok VNull);
        Sent recordNotFound]).
Proof. vm_compute. reflexivity. Qed.

(** ** The path identifier *)

(** C2 fails as stated: [softDelete] with the identifier [not-24-hex]
    calls [updateOne] and answers not found. *)
Lemma malformed_identifier_reaches_store :
  ~ Forall (@rejects_malformed_identifier MemStore.t)
      (by_identifier_actions Sample.db Sample.isValid Sample.Date_parses
                             Sample.TaskE).
Proof.
  intros H. unfold by_identifier_actions in H.
  do 3 (apply Forall_inv_tail in H). apply Forall_inv in H.
  destruct (H (Sample.by_id (VStr "not-24-hex")) Sample.one_task
              "not-24-hex" eq_refl eq_refl) as [m Hm].
  unfold turned_down in Hm. vm_compute in Hm. discriminate.
Qed.

(** C2, as the code has it.  [get] turns down an identifier that
    [ObjectId.isValid] rejects with a validation error, before any store
    call.  [softDelete] and [delete] turn down an absent or empty
    identifier as a bad request, before any store call, and hand any other
    identifier to the store in the query, whatever its format.  [update]
    never looks at the identifier, and [partialUpdate] does not look at the
    format of one that is present: when the payload validates, the store is
    called with the identifier in the query. *)
Theorem identifier_checks St (dbService : dbServiceT St) ObjectId_isValid
  Date_parses E req s id :
  get_prop (params req) "id" = Ok id ->
  (ObjectId_isValid id = false ->
   turned_down (Controller.get dbService ObjectId_isValid) req s
               (validationError "invalid objectId."))
  /\
  (truthy id = false ->
   turned_down (Controller.softDelete dbService) req s
               (badRequest (Some Controller.id_required)) /\
   turned_down (Controller.delete dbService) req s
               (badRequest (Some Controller.id_required)))
  /\
  (truthy id = true ->
   calls_once dbService (Controller.delete dbService) req s
              Db.deleteOne [VObj (by_id_query id)] (fun v => v) /\
   forall uid, get_prop (user req) "id" = Ok uid ->
     calls_once dbService (Controller.softDelete dbService) req s
                Db.updateOne
                [VObj (by_id_query id); VObj (soft_delete_body uid)]
                (fun v => v))
  /\
  (forall uid, get_prop (user req) "id" = Ok uid ->
     isValid (validateParamsWithJoi Date_parses
                (update_payload (body req) uid) (updateSchemaKeys E)) = true ->
     calls_once dbService (Controller.update dbService Date_parses E) req s
                Db.updateOne
                [VObj (by_id_query id); VObj (update_payload (body req) uid)]
                (fun v => v))
  /\
  (truthy id = true ->
   forall uid body', get_prop (user req) "id" = Ok uid ->
     js_delete (body req) "addedBy" = Ok body' ->
     isValid (validateParamsWithJoi Date_parses
                (update_payload body' uid) (updateSchemaKeys E)) = true ->
     calls_once dbService (Controller.partialUpdate dbService Date_parses E)
                req s Db.updateOne
                [VObj (by_id_query id); VObj (update_payload body' uid)]
                (fun v => v)).
Proof.
  intros Hid. unfold turned_down, calls_once, by_id_query, soft_delete_body,
    update_payload, reported.
  repeat split.
  - intros Hbad. unfold Controller.get. run_action.
    now rewrite Hid, Hbad.
  - unfold Controller.softDelete. run_action. now rewrite Hid, H.
  - unfold Controller.delete. run_action. now rewrite Hid, H.
  - unfold Controller.delete. run_action. rewrite Hid, H. cases; reflexivity.
  - intros uid Huid. unfold Controller.softDelete. run_action.
    rewrite Hid, H, Huid. cases; reflexivity.
  - intros uid Huid Hvalid. unfold Controller.update. run_action.
    rewrite Huid. simpl. rewrite Hvalid, Hid. cases; reflexivity.
  - intros Hpresent uid body' Huid Hbody Hvalid.
    unfold Controller.partialUpdate. run_action.
    rewrite Hid, Hpresent, Hbody, Huid. simpl. rewrite Hvalid. simpl.
    cases; reflexivity.
Qed.

Lemma identifier_checks_witness :
  turned_down (Controller.get Sample.db Sample.isValid)
              (Sample.by_id (VStr "not-24-hex")) Sample.one_task
              (validationError "invalid objectId.").
Proof.
  destruct (@identifier_checks _ Sample.db Sample.isValid Sample.Date_parses
              Sample.TaskE (Sample.by_id (VStr "not-24-hex")) Sample.one_task
              (VStr "not-24-hex") eq_refl) as [Hget _].
  apply Hget. reflexivity.
Defined.

(** ** Bulk actions and their list *)

(** C4 fails as stated: [bulkInsert] on a request without a body, whose
    [data] is absent then, answers with an internal error, not with a bad
    request. *)
Lemma bulkInsert_without_body_is_no_bad_request :
  ~ bulk_actions_reject Sample.db.
Proof.
  intros [H _].
  assert (Hturned : turned_down (Controller.bulkInsert Sample.db)
                      (Sample.with_body VUndefined) Sample.one_task
                      (badRequest None)).
  { apply H. simpl. discriminate. }
  unfold turned_down in Hturned. vm_compute in Hturned. discriminate.
Qed.

(** C4, as the code has it.  A bulk action given a list that is absent, not
    an array or empty answers without calling the store.  The answer is a
    bad request whenever the request has a body: a truthy [req.body] for
    [bulkInsert], whose check is guarded by [req.body &&], and a
    [req.body] whose [ids] can be read, that is one that is neither
    [undefined] nor [null], for [deleteMany] and [softDeleteMany]. *)
Theorem bulk_actions_check_their_list St (dbService : dbServiceT St) req s :
  ((forall d, get_prop (body req) "data" = Ok d ->
              Controller.not_nonempty_array d = true) ->
   (exists r, turned_down (Controller.bulkInsert dbService) req s r) /\
   (truthy (body req) = true ->
    turned_down (Controller.bulkInsert dbService) req s (badRequest None)))
  /\
  ((forall d, get_prop (body req) "ids" = Ok d ->
              Controller.not_nonempty_array d = true) ->
   (exists r, turned_down (Controller.deleteMany dbService) req s r) /\
   (exists r, turned_down (Controller.softDeleteMany dbService) req s r) /\
   (forall ids, get_prop (body req) "ids" = Ok ids ->
      turned_down (Controller.deleteMany dbService) req s (badRequest None) /\
      turned_down (Controller.softDeleteMany dbService) req s
                  (badRequest None))).
Proof.
  unfold turned_down. split; intros Hbad.
  - assert (Hpresent : truthy (body req) = true ->
              handle (Controller.bulkInsert dbService) req s
              = (Ok (badRequest None), mkWorld s [Sent (badRequest None)])).
    { intros Hbody.
      destruct (get_prop_truthy (body req) "data" Hbody) as [d Hd].
      unfold Controller.bulkInsert. run_action.
      now rewrite Hbody, Hd, (Hbad d Hd). }
    split; [|exact Hpresent].
    destruct (truthy (body req)) eqn:Hbody; [eauto|].
    unfold Controller.bulkInsert. run_action. rewrite Hbody.
    destruct (get_prop (body req) "data") as [d|e] eqn:Hd; simpl.
    + apply get_prop_falsy in Hd; [subst d|assumption|discriminate].
      eexists. reflexivity.
    + eexists. reflexivity.
  - assert (Hread : forall ids, get_prop (body req) "ids" = Ok ids ->
              handle (Controller.deleteMany dbService) req s
              = (Ok (badRequest None), mkWorld s [Sent (badRequest None)]) /\
              handle (Controller.softDeleteMany dbService) req s
              = (Ok (badRequest None), mkWorld s [Sent (badRequest None)])).
    { intros ids Hids.
      unfold Controller.deleteMany, Controller.softDeleteMany.
      run_action. rewrite Hids, (Hbad ids Hids), orb_true_r. now split. }
    split; [|split; [|exact Hread]].
    + destruct (get_prop (body req) "ids") as [ids|e] eqn:Hids.
      * destruct (Hread ids eq_refl) as [H _]. eauto.
      * unfold Controller.deleteMany. run_action. rewrite Hids.
        eexists. reflexivity.
    + destruct (get_prop (body req) "ids") as [ids|e] eqn:Hids.
      * destruct (Hread ids eq_refl) as [_ H]. eauto.
      * unfold Controller.softDeleteMany. run_action. rewrite Hids.
        eexists. reflexivity.
Qed.

Lemma bulk_actions_check_their_list_witness :
  turned_down (Controller.deleteMany Sample.db)
              (Sample.with_body (VObj [("ids", VArr [])])) Sample.one_task
              (badRequest None).
Proof.
  destruct (@bulk_actions_check_their_list _ Sample.db
              (Sample.with_body (VObj [("ids", VArr [])])) Sample.one_task)
    as [_ Hids].
  destruct Hids as (_ & _ & Hread).
  - simpl. intros d H. inversion H. reflexivity.
  - destruct (Hread (VArr []) eq_refl) as [Hdel _]. exact Hdel.
Defined.

(** ** The store *)

Lemma soft_delete_assign (d : object) (uid : value) :
  obj_assign d (soft_delete_body uid)
  = obj_set "updatedBy" uid (obj_set "isDeleted" (VBool true) d).
Proof. reflexivity. Qed.

Lemma soft_delete_keeps_the_rest (d : object) (uid : value) :
  same_but_soft_delete d (obj_assign d (soft_delete_body uid)).
Proof.
  intros k H1 H2. rewrite soft_delete_assign.
  now rewrite !obj_get_set_other.
Qed.

Lemma soft_delete_sets_flag (d : object) (uid : value) :
  obj_get (obj_assign d (soft_delete_body uid)) "isDeleted"
  = Some (VBool true).
Proof.
  rewrite soft_delete_assign, obj_get_set_other by discriminate.
  apply obj_get_set_same.
Qed.

Lemma soft_delete_twice (d : object) (uid : value) :
  obj_assign (obj_assign d (soft_delete_body uid)) (soft_delete_body uid)
  = obj_assign d (soft_delete_body uid).
Proof.
  rewrite (soft_delete_assign (obj_assign _ _)), soft_delete_assign.
  rewrite (@obj_set_present "isDeleted").
  - apply obj_set_present, obj_get_set_same.
  - rewrite obj_get_set_other by discriminate. apply obj_get_set_same.
Qed.


Module MemStoreFacts.
Import MemStore.

(** A query on [_id] alone cannot tell two versions of a record apart. *)
Lemma matches_by_id (qv : value) (d d' : object) :
  same_but_soft_delete d d' ->
  matches [("_id", qv)] d' = matches [("_id", qv)] d.
Proof.
  intros H. unfold matches. simpl.
  now rewrite (H "_id") by discriminate.
Qed.

Lemma updateOne_eq (q b : object) (s : t) :
  dbService Db.updateOne [VObj q; VObj b] s
  = (Ok (null_or (fst (update_first q b (docs s)))),
     mk (snd (update_first q b (docs s))) (next_id s)).
Proof. simpl. now destruct (update_first q b (docs s)). Qed.


Lemma update_first_twice (q b : object) (l : list object) :
  (forall d, matches q (obj_assign d b) = matches q d) ->
  (forall d, obj_assign (obj_assign d b) b = obj_assign d b) ->
  update_first q b (snd (update_first q b l)) = update_first q b l.
Proof.
  intros Hq Hb. induction l as [|d l IH]; simpl; [reflexivity|].
  destruct (matches q d) eqn:Hd; simpl.
  - now rewrite Hq, Hd, Hb.
  - destruct (update_first q b l) as [r l']. simpl in *.
    now rewrite Hd, IH.
Qed.

Lemma update_first_found (q b : object) (l : list object) :
  existsb (matches q) l = true ->
  exists d, In d l /\
            fst (update_first q b l) = Some (obj_assign d b) /\
            In (obj_assign d b) (snd (update_first q b l)).
Proof.
  induction l as [|d l IH]; simpl; [discriminate|].
  destruct (matches q d) eqn:Hd; simpl.
  - intros _. exists d. auto.
  - intros H. destruct (IH H) as (d0 & Hin & Hfst & Hsnd).
    destruct (update_first q b l) as [r l']. simpl in *.
    exists d0. auto.
Qed.





End MemStoreFacts.

(** ** Soft delete *)

Section SoftDelete.

Variable St : Type.
Variable dbService : dbServiceT St.

Lemma softDelete_run req s id uid :
  get_prop (params req) "id" = Ok id -> truthy id = true ->
  get_prop (user req) "id" = Ok uid ->
  calls_once dbService (Controller.softDelete dbService) req s Db.updateOne
             [VObj (by_id_query id); VObj (soft_delete_body uid)]
             (fun v => v).
Proof.
  intros Hid Hpresent Huid.
  unfold calls_once, reported, by_id_query, soft_delete_body.
  unfold Controller.softDelete. run_action.
  rewrite Hid, Hpresent, Huid. cases; reflexivity.
Qed.






End SoftDelete.

Section SoftDeleteInStore.

Import MemStore MemStoreFacts.






End SoftDeleteInStore.

Section FirstMatch.

Import MemStore MemStoreFacts.

Lemma obj_set_set (k : string) (v v' : value) (o : object) :
  obj_set k v (obj_set k v' o) = obj_set k v o.
Proof.
  induction o as [|[k0 v0] o IH]; simpl.
  - now rewrite String.eqb_refl.
  - destruct (String.eqb_spec k0 k) as [->|Hk0]; simpl.
    + now rewrite String.eqb_refl.
    + destruct (String.eqb_spec k0 k); [contradiction|]. now rewrite IH.
Qed.

Lemma soft_deleted_flagged : soft_deleted_is_flagged.
Proof.
  intros uid d. unfold soft_deleted. split; [|split].
  - apply soft_delete_sets_flag.
  - rewrite soft_delete_assign. apply obj_get_set_same.
  - apply soft_delete_keeps_the_rest.
Qed.

(** A later soft delete overrides an earlier one: only the last caller
    shows. *)
Lemma soft_deleted_again (uid uid' : value) (d : object) :
  soft_deleted uid' (soft_deleted uid d) = soft_deleted uid' d.
Proof.
  unfold soft_deleted. rewrite !soft_delete_assign.
  rewrite (@obj_set_present "isDeleted").
  - apply obj_set_set.
  - rewrite obj_get_set_other by discriminate. apply obj_get_set_same.
Qed.

Lemma soft_deleted_still_matches (qv uid : value) (d : object) :
  matches [("_id", qv)] (soft_deleted uid d) = matches [("_id", qv)] d.
Proof. apply matches_by_id, soft_delete_keeps_the_rest. Qed.

Lemma first_match_exists (q : object) (l : list object) :
  existsb (matches q) l = true ->
  exists before d after,
    l = before ++ d :: after /\
    forallb (fun x => negb (matches q x)) before = true /\
    matches q d = true.
Proof.
  induction l as [|x l IH]; [discriminate|]. cbn [existsb].
  destruct (matches q x) eqn:Hx.
  - intros _. exists [], x, l. auto.
  - intros H. destruct (IH H) as (before & d & after & -> & Hnone & Hd).
    exists (x :: before), d, after. cbn [forallb]. rewrite Hx. auto.
Qed.

Lemma update_first_at (q b : object) (before after : list object)
  (d : object) :
  forallb (fun x => negb (matches q x)) before = true ->
  matches q d = true ->
  update_first q b (before ++ d :: after)
  = (Some (obj_assign d b), before ++ obj_assign d b :: after).
Proof.
  intros Hnone Hd. induction before as [|x before IH]; cbn [app update_first].
  - now rewrite Hd.
  - cbn [forallb] in Hnone. apply andb_true_iff in Hnone as [Hx Hnone].
    apply negb_true_iff in Hx. now rewrite Hx, (IH Hnone).
Qed.


(** [softDelete] in the store of the specification, run out. *)
Lemma softDelete_in_store req s id uid :
  get_prop (params req) "id" = Ok id -> truthy id = true ->
  get_prop (user req) "id" = Ok uid ->
  handle (Controller.softDelete dbService) req s
  = let u := update_first (by_id_query id) (soft_delete_body uid) (docs s) in
    (Ok (reported (fun v => v) (Ok (null_or (fst u)))),
     mkWorld (mk (snd u) (next_id s))
       [DbCall Db.updateOne
          [VObj (by_id_query id); VObj (soft_delete_body uid)]
          (Ok (null_or (fst u)));
        Sent (reported (fun v => v) (Ok (null_or (fst u))))]).
Proof.
  intros Hid Hpresent Huid.
  pose proof (@softDelete_run _ dbService req s id uid Hid Hpresent Huid)
    as Hrun.
  unfold calls_once in Hrun. rewrite Hrun, updateOne_eq. reflexivity.
Qed.



End FirstMatch.




(** C6.  [softDelete] is idempotent.  In the store of the specification,
    take two requests with the same identifier, one that finds a record,
    and callers that are known.  The first [softDelete] replaces the first
    record of that identifier by its soft-deleted version and answers
    success with it; the second, run on the store the first one left,
    answers success too, with the soft-deleted version of the same record,
    which still matches the identifier and has [isDeleted] true.  The
    store after both is the store the second request alone would have
    left; it is the store the first one left when the caller is the same,
    and differs from it in the [updatedBy] of that one record when it is
    not. *)
Theorem softDelete_is_idempotent req req' s id uid uid' :
  get_prop (params req) "id" = Ok id ->
  get_prop (params req') "id" = Ok id ->
  truthy id = true ->
  get_prop (user req) "id" = Ok uid ->
  get_prop (user req') "id" = Ok uid' ->
  existsb (MemStore.matches (by_id_query id)) (MemStore.docs s) = true ->
  let once := handle (Controller.softDelete MemStore.dbService) req s in
  let twice :=
    handle (Controller.softDelete MemStore.dbService) req' (store (snd once)) in
  let alone := handle (Controller.softDelete MemStore.dbService) req' s in
  exists d,
    first_match_replaced (by_id_query id) d (soft_deleted uid d)
      (MemStore.docs s) (MemStore.docs (store (snd once))) /\
    first_match_replaced (by_id_query id) d (soft_deleted uid' d)
      (MemStore.docs s) (MemStore.docs (store (snd twice))) /\
    fst once = Ok (success (VObj (soft_deleted uid d))) /\
    fst twice = Ok (success (VObj (soft_deleted uid' d))) /\
    MemStore.matches (by_id_query id) (soft_deleted uid' d) = true /\
    obj_get (soft_deleted uid d) "isDeleted" = Some (VBool true) /\
    obj_get (soft_deleted uid' d) "isDeleted" = Some (VBool true) /\
    (forall k, k <> "updatedBy" ->
               obj_get (soft_deleted uid' d) k = obj_get (soft_deleted uid d) k) /\
    store (snd twice) = store (snd alone) /\
    (uid' = uid -> store (snd twice) = store (snd once)).
Proof.
  intros Hid Hid' Hpresent Huid Huid' Hfound. cbv zeta.
  destruct (@first_match_exists _ _ Hfound)
    as (before & d & after & Hl & Hnone & Hd).
  assert (Hd1 : MemStore.matches (by_id_query id) (soft_deleted uid d) = true)
    by (unfold by_id_query; now rewrite soft_deleted_still_matches).
  assert (Hd2 : MemStore.matches (by_id_query id) (soft_deleted uid' d) = true)
    by (unfold by_id_query; now rewrite soft_deleted_still_matches).
  rewrite (@softDelete_in_store req s id uid Hid Hpresent Huid).
  rewrite (@softDelete_in_store req' s id uid' Hid' Hpresent Huid'). cbv zeta.
  rewrite Hl.
  rewrite (@update_first_at _ (soft_delete_body uid) before after d Hnone Hd).
  rewrite (@update_first_at _ (soft_delete_body uid') before after d Hnone Hd).
  cbn [fst snd store MemStore.null_or reported truthy].
  rewrite (@softDelete_in_store req' _ id uid' Hid' Hpresent Huid'). cbv zeta.
  cbn [MemStore.docs MemStore.next_id].
  fold (soft_deleted uid d). fold (soft_deleted uid' d).
  rewrite (@update_first_at _ (soft_delete_body uid') before after
             (soft_deleted uid d) Hnone Hd1).
  fold (soft_deleted uid' (soft_deleted uid d)).
  rewrite soft_deleted_again.
  cbn [fst snd store MemStore.docs MemStore.null_or reported truthy].
  destruct (soft_deleted_flagged uid d) as (Hflag & _ & Hrest).
  destruct (soft_deleted_flagged uid' d) as (Hflag' & _ & Hrest').
  exists d. repeat split; auto.
  - exists before, after. auto.
  - exists before, after. auto.
  - intros k Hk. unfold soft_deleted. rewrite !soft_delete_assign.
    destruct (String.eqb_spec k "isDeleted") as [->|Hk'].
    + now rewrite !obj_get_set_other, !obj_get_set_same by discriminate.
    + now rewrite !obj_get_set_other.
  - intros ->. reflexivity.
Qed.

Lemma softDelete_is_idempotent_witness :
  store (snd (handle (Controller.softDelete MemStore.dbService)
                 (Sample.by_id (VStr Sample.an_id))
                 (store (snd (handle (Controller.softDelete MemStore.dbService)
                                     (Sample.by_id (VStr Sample.an_id))
                                     Sample.one_task)))))
  = store (snd (handle (Controller.softDelete MemStore.dbService)
                       (Sample.by_id (VStr Sample.an_id)) Sample.one_task)).
Proof.
  destruct (@softDelete_is_idempotent
              (Sample.by_id (VStr Sample.an_id))
              (Sample.by_id (VStr Sample.an_id))
              Sample.one_task (VStr Sample.an_id)
              (VStr "5f1d7f3e9b1e8a0012345678")
              (VStr "5f1d7f3e9b1e8a0012345678")
              eq_refl eq_refl eq_refl eq_refl eq_refl eq_refl)
    as (d & _ & _ & _ & _ & _ & _ & _ & _ & _ & Hsame).
  apply Hsame. reflexivity.
Defined.

(* ================================================================== *)
(** * More of the controllers *)

(** ** Store calls of an invocation *)

Lemma db_calls_app (t u : list event) :
  db_calls (t ++ u) = db_calls t ++ db_calls u.
Proof. apply filter_app. Qed.

Lemma responses_app (t u : list event) :
  responses (t ++ u) = responses t ++ responses u.
Proof. apply flat_map_app. Qed.

Section CallAccounting.

Variable St : Type.
Variable dbService : dbServiceT St.

Lemma quiet_ret A (a : A) : quiet (@ret St A a).
Proof. now intros w. Qed.

Lemma quiet_lift A (o : outcome A) : quiet (@lift St A o).
Proof. now intros w. Qed.

Lemma quiet_respond r : quiet (@respond St r).
Proof.
  intros w. simpl. split; [reflexivity|].
  rewrite db_calls_app. simpl. apply app_nil_r.
Qed.

Lemma quiet_bind A B (m : M St A) (k : A -> M St B) :
  quiet m -> (forall a, quiet (k a)) -> quiet (bind m k).
Proof.
  intros Hm Hk w. unfold bind. destruct (Hm w) as [Hs Hc].
  destruct (m w) as [[a|e] w1]; simpl in *; [|now split].
  destruct (Hk a w1) as [Hs' Hc']. split; congruence.
Qed.

Lemma quiet_mapM A B (f : A -> M St B) (l : list A) :
  (forall a, quiet (f a)) -> quiet (mapM f l).
Proof.
  intros Hf. induction l as [|x l IH]; simpl.
  - apply quiet_ret.
  - apply quiet_bind; [apply Hf|]. intros y.
    apply quiet_bind; [apply IH|]. intros ys. apply quiet_ret.
Qed.

Lemma quiet_frugal A (m : M St A) : quiet m -> frugal dbService m.
Proof. intros Hm w. left. apply Hm. Qed.

Lemma frugal_call_db op args : frugal dbService (call_db dbService op args).
Proof.
  intros w. right. exists op, args. unfold call_db.
  destruct (dbService op args (store w)) as [r s']. simpl.
  split; [|reflexivity]. rewrite db_calls_app. reflexivity.
Qed.

Lemma frugal_bind_quiet A B (m : M St A) (k : A -> M St B) :
  quiet m -> (forall a, frugal dbService (k a)) -> frugal dbService (bind m k).
Proof.
  intros Hm Hk w. unfold bind. destruct (Hm w) as [Hs Hc].
  destruct (m w) as [[a|e] w1]; simpl in *; [|now left].
  destruct (Hk a w1) as [[Hs' Hc']|(op & args & Hc' & Hs')].
  - left. split; congruence.
  - right. exists op, args. rewrite Hc', Hs', Hc, Hs. now split.
Qed.

Lemma frugal_bind_call A B (m : M St A) (k : A -> M St B) :
  frugal dbService m -> (forall a, quiet (k a)) -> frugal dbService (bind m k).
Proof.
  intros Hm Hk w. unfold bind.
  destruct (Hm w) as [[Hs Hc]|(op & args & Hc & Hs)];
    destruct (m w) as [[a|e] w1]; simpl in *.
  - destruct (Hk a w1) as [Hs' Hc']. left. split; congruence.
  - now left.
  - destruct (Hk a w1) as [Hs' Hc']. right. exists op, args.
    split; congruence.
  - right. exists op, args. now split.
Qed.

Lemma frugal_try_catch A (m : M St A) (h : exn -> M St A) :
  frugal dbService m -> (forall e, quiet (h e)) ->
  frugal dbService (try_catch m h).
Proof.
  intros Hm Hh w. unfold try_catch.
  destruct (Hm w) as [[Hs Hc]|(op & args & Hc & Hs)];
    destruct (m w) as [[a|e] w1]; simpl in *.
  - now left.
  - destruct (Hh e w1) as [Hs' Hc']. left. split; congruence.
  - right. exists op, args. now split.
  - destruct (Hh e w1) as [Hs' Hc']. right. exists op, args.
    split; congruence.
Qed.

Lemma frugal_action (body_of : request -> M St response) :
  (forall req, frugal dbService (body_of req)) ->
  one_call_at_most dbService
    (fun req => try_catch (body_of req) (@Controller.on_error St)).
Proof.
  intros Hbody req s. cbv zeta. unfold handle.
  destruct (@frugal_try_catch _ (body_of req) (@Controller.on_error St)
              (Hbody req) (fun e => quiet_respond _) (mkWorld s []))
    as [H|(op & args & H)]; [left|right; exists op, args]; exact H.
Qed.

End CallAccounting.

Create HintDb frugal.

#[local] Hint Resolve quiet_ret quiet_lift quiet_respond : frugal.

(** One step through the body of an action, counting its store calls. *)
Ltac frugal_step :=
  lazymatch goal with
  | |- quiet (bind _ _) => apply quiet_bind; [|intro]
  | |- quiet (mapM _ _) => apply quiet_mapM; intro
  | |- quiet (Controller.stamped _ _) => unfold Controller.stamped
  | |- frugal _ (bind (call_db _ _ _) _) =>
      apply frugal_bind_call; [apply frugal_call_db|intro]
  | |- frugal _ (bind _ _) => apply frugal_bind_quiet; [|intro]
  | |- frugal _ (respond _) => apply quiet_frugal, quiet_respond
  | |- _ (if ?b then _ else _) => destruct b
  | |- _ (let _ := _ in _) => cbv zeta
  | |- _ => solve [auto with frugal]
  end.

Ltac frugal_body := intro; cbv beta; repeat frugal_step.

(** X1.  One store call at most.  Each of the twelve actions, on every
    request and every store, goes to [dbService] once or not at all; the
    store it leaves is the one that single call left, and the store it was
    given when it made no call. *)
Theorem one_store_call St (dbService : dbServiceT St)
  ObjectId_isValid Date_parses E :
  Forall (one_call_at_most dbService)
         (actions dbService ObjectId_isValid Date_parses E).
Proof.
  unfold actions.
  repeat (apply Forall_cons; [apply frugal_action; frugal_body|]).
  apply Forall_nil.
Qed.

(** ** Responses of an invocation *)

Section ResponseAccounting.

Variable St : Type.
Variable dbService : dbServiceT St.

Lemma silent_ret A (a : A) : silent (@ret St A a).
Proof. now intros w. Qed.

Lemma silent_lift A (o : outcome A) : silent (@lift St A o).
Proof. now intros w. Qed.

Lemma silent_call_db op args : silent (call_db dbService op args).
Proof.
  intros w. unfold call_db.
  destruct (dbService op args (store w)) as [r s']. simpl.
  rewrite responses_app. simpl. apply app_nil_r.
Qed.

Lemma silent_bind A B (m : M St A) (k : A -> M St B) :
  silent m -> (forall a, silent (k a)) -> silent (bind m k).
Proof.
  intros Hm Hk w. unfold bind. specialize (Hm w).
  destruct (m w) as [[a|e] w1]; simpl in *; [|assumption].
  now rewrite Hk.
Qed.

Lemma silent_mapM A B (f : A -> M St B) (l : list A) :
  (forall a, silent (f a)) -> silent (mapM f l).
Proof.
  intros Hf. induction l as [|x l IH]; simpl.
  - apply silent_ret.
  - apply silent_bind; [apply Hf|]. intros y.
    apply silent_bind; [apply IH|]. intros ys. apply silent_ret.
Qed.

Lemma single_respond r : single (@respond St r).
Proof. intros w. simpl. now rewrite responses_app. Qed.

Lemma single_bind A (m : M St A) (k : A -> M St response) :
  silent m -> (forall a, single (k a)) -> single (bind m k).
Proof.
  intros Hm Hk w. unfold bind. specialize (Hm w).
  destruct (m w) as [[a|e] w1]; simpl in *; [|assumption].
  specialize (Hk a w1). destruct (k a w1) as [[r|e] w2]; congruence.
Qed.

Lemma single_action (body_of : request -> M St response) :
  (forall req, single (body_of req)) ->
  answers_once (fun req => try_catch (body_of req) (@Controller.on_error St)).
Proof.
  intros Hbody req s. unfold handle, try_catch.
  specialize (Hbody req (mkWorld s [])).
  destruct (body_of req (mkWorld s [])) as [[r|e] w1]; simpl in *.
  - now exists r.
  - exists (internalServerError (message e)). split; [reflexivity|].
    now rewrite responses_app, Hbody.
Qed.

Lemma returns_only_respond (P : response -> Prop) r :
  P r -> returns_only P (@respond St r).
Proof. intros HP w r' H. simpl in H. now inversion H; subst. Qed.

Lemma returns_only_bind (P : response -> Prop) A (m : M St A)
  (k : A -> M St response) :
  (forall a, returns_only P (k a)) -> returns_only P (bind m k).
Proof.
  intros Hk w r. unfold bind.
  destruct (m w) as [[a|e] w1]; simpl; [apply Hk|discriminate].
Qed.

Lemma returns_only_action (kind : response -> bool)
  (body_of : request -> M St response) :
  (forall req, returns_only (fun r => kind r = false) (body_of req)) ->
  (forall m, kind (internalServerError m) = false) ->
  never_returns kind
    (fun req => try_catch (body_of req) (@Controller.on_error St)).
Proof.
  intros Hbody Herr req s r. unfold handle, try_catch.
  specialize (Hbody req (mkWorld s [])).
  destruct (body_of req (mkWorld s [])) as [[r'|e] w1]; simpl in *.
  - intros H. inversion H; subst. now apply Hbody.
  - intros H. inversion H; subst. apply Herr.
Qed.

End ResponseAccounting.

Create HintDb silent.

#[local] Hint Resolve silent_ret silent_lift silent_call_db single_respond
  : silent.

(** One step through the body of an action, counting its responses. *)
Ltac single_step :=
  lazymatch goal with
  | |- silent (bind _ _) => apply silent_bind; [|intro]
  | |- silent (mapM _ _) => apply silent_mapM; intro
  | |- silent (Controller.stamped _ _) => unfold Controller.stamped
  | |- single (bind _ _) => apply single_bind; [|intro]
  | |- _ (if ?b then _ else _) => destruct b
  | |- _ (let _ := _ in _) => cbv zeta
  | |- _ => solve [auto with silent]
  end.

Ltac single_body := intro; cbv beta; repeat single_step.

(** One step through the body of an action, looking at what it returns. *)
Ltac returns_step :=
  lazymatch goal with
  | |- returns_only _ (bind _ _) => apply returns_only_bind; intro
  | |- returns_only _ (respond _) => apply returns_only_respond; reflexivity
  | |- _ (if ?b then _ else _) => destruct b
  | |- _ (let _ := _ in _) => cbv zeta
  end.

Ltac never :=
  apply returns_only_action;
  [intro; cbv beta; repeat returns_step|reflexivity].

(** X2.  One response.  Every action but [partialUpdate] sends exactly one
    response in an invocation, the one it returns, whatever the request
    and the store.  [partialUpdate] sends the one it returns, preceded by
    the bad request about the identifier or by nothing. *)
Theorem one_response St (dbService : dbServiceT St)
  ObjectId_isValid Date_parses E :
  Forall (@answers_once St)
         (actions_but_partialUpdate dbService ObjectId_isValid Date_parses E)
  /\
  forall req s,
    exists r,
      fst (handle (Controller.partialUpdate dbService Date_parses E) req s)
      = Ok r /\
      (responses
         (trace (snd (handle (Controller.partialUpdate dbService Date_parses E)
                             req s)))
       = [r] \/
       responses
         (trace (snd (handle (Controller.partialUpdate dbService Date_parses E)
                             req s)))
       = [badRequest (Some Controller.id_required); r]).
Proof.
  split.
  - unfold actions_but_partialUpdate.
    repeat (apply Forall_cons; [apply single_action; single_body|]).
    apply Forall_nil.
  - intros req s. unfold Controller.partialUpdate.
    cases; eexists; (split; [reflexivity|]); simpl; auto.
Qed.

(** X3.  No "not found" on the way in.  [add], [bulkInsert] and
    [getCount] never return the not-found response: whatever the store
    gives back, a falsy result and a count of zero included, is reported
    as a success. *)
Theorem creation_and_count_never_not_found St (dbService : dbServiceT St)
  Date_parses E :
  never_returns is_recordNotFound (Controller.add dbService Date_parses E) /\
  never_returns is_recordNotFound (Controller.bulkInsert dbService) /\
  never_returns is_recordNotFound (Controller.getCount dbService E).
Proof. repeat split; never. Qed.

(** X4.  No validation on the bulk and delete paths.  [bulkInsert],
    [bulkUpdate], [softDelete], [delete], [deleteMany] and
    [softDeleteMany] never return a validation error: none of them
    validates what it is given against a schema. *)
Theorem bulk_and_delete_never_validation_error St (dbService : dbServiceT St) :
  never_returns is_validationError (Controller.bulkInsert dbService) /\
  never_returns is_validationError (Controller.bulkUpdate dbService) /\
  never_returns is_validationError (Controller.softDelete dbService) /\
  never_returns is_validationError (Controller.delete dbService) /\
  never_returns is_validationError (Controller.deleteMany dbService) /\
  never_returns is_validationError (Controller.softDeleteMany dbService).
Proof. repeat split; never. Qed.

(** X5.  No bad request where no list or identifier is asked for.  [add],
    [findAll], [get], [getCount], [update] and [bulkUpdate] never return a
    bad request; nor does [partialUpdate], which sends one when the
    identifier is missing but returns what comes after it. *)
Theorem never_bad_request St (dbService : dbServiceT St)
  ObjectId_isValid Date_parses E :
  never_returns is_badRequest (Controller.add dbService Date_parses E) /\
  never_returns is_badRequest (Controller.findAll dbService E) /\
  never_returns is_badRequest (Controller.get dbService ObjectId_isValid) /\
  never_returns is_badRequest (Controller.getCount dbService E) /\
  never_returns is_badRequest (Controller.update dbService Date_parses E) /\
  never_returns is_badRequest (Controller.bulkUpdate dbService) /\
  never_returns is_badRequest
    (Controller.partialUpdate dbService Date_parses E).
Proof. repeat split; never. Qed.

(** ** Reading: [findAll], [get], [getCount] *)

Lemma page_cases :
  page_is_empty VNull = true /\
  page_is_empty VUndefined = true /\
  (forall rest, page_is_empty (VObj (("data", VArr []) :: rest)) = true) /\
  (forall rest x l,
      page_is_empty (VObj (("data", VArr (x :: l)) :: rest)) = false) /\
  (forall o, obj_get o "data" = None -> page_is_empty (VObj o) = true).
Proof.
  split; [reflexivity|]. split; [reflexivity|].
  split; [reflexivity|]. split.
  - intros rest x l. unfold page_is_empty. simpl.
    destruct (length l); reflexivity.
  - intros o Ho. unfold page_is_empty. simpl. now rewrite Ho.
Qed.

(** Reading a property of a truthy value does not throw. *)
Ltac no_throw :=
  match goal with
  | H : get_prop ?x ?k = Throw _, T : truthy ?x = true |- _ =>
      destruct (get_prop_truthy x k T); congruence
  end.

(** X6.  Counting instead of listing.  When the filter validates and
    [req.body.isCountOnly] is truthy, [findAll] makes one [count] call with
    a copy of [req.body.query] (the empty query when that is no object),
    reads no options, never paginates, and answers success with
    [totalRecords] whatever the count, zero included. *)
Theorem findAll_count_only St (dbService : dbServiceT St) E req s v q c :
  validateFilterWithJoi E (body req) true = Ok v ->
  isValid v = true ->
  get_prop (body req) "query" = Ok q ->
  get_prop (body req) "isCountOnly" = Ok c ->
  truthy c = true ->
  calls_and_passes_on dbService (Controller.findAll dbService E) req s
    Db.count [VObj (object_or_empty q)]
    (fun n => VObj [("totalRecords", n)]).
Proof.
  intros Hv Hvalid Hq Hc Hcount.
  unfold calls_and_passes_on, passed_on, object_or_empty.
  unfold Controller.findAll. run_action.
  rewrite Hv. simpl. rewrite Hvalid, Hq, Hc. simpl. rewrite Hcount.
  cases; reflexivity.
Qed.

Lemma findAll_count_only_witness :
  calls_and_passes_on Sample.db
    (Controller.findAll Sample.db Sample.TaskE) Sample.count_only
    Sample.one_task Db.count
    [VObj [("title", VStr "write the report")]]
    (fun n => VObj [("totalRecords", n)]).
Proof.
  apply (@findAll_count_only _ Sample.db Sample.TaskE Sample.count_only
           Sample.one_task (mkValidation true EmptyString)
           (VObj [("title", VStr "write the report")]) (VBool true));
    reflexivity.
Defined.

(** X7.  Listing.  When the filter validates and [req.body.isCountOnly] is
    falsy, [findAll] makes one [paginate] call with copies of
    [req.body.query] and [req.body.options] (empty when they are no
    objects) and answers not found when the page is empty and success with
    the page otherwise.  A page is empty when it is [null] or has no
    [data], and when its [data] is the empty array; it is not when its
    [data] is an array with an element. *)
Theorem findAll_page St (dbService : dbServiceT St) E req s v q c o :
  validateFilterWithJoi E (body req) true = Ok v ->
  isValid v = true ->
  get_prop (body req) "query" = Ok q ->
  get_prop (body req) "isCountOnly" = Ok c ->
  truthy c = false ->
  get_prop (body req) "options" = Ok o ->
  let args := [VObj (object_or_empty q); VObj (object_or_empty o)] in
  let result := fst (dbService Db.paginate args s) in
  let answer :=
    match result with
    | Ok found => if page_is_empty found then recordNotFound
                  else success found
    | Throw e => internalServerError (message e)
    end in
  handle (Controller.findAll dbService E) req s
  = (Ok answer,
     mkWorld (snd (dbService Db.paginate args s))
             [DbCall Db.paginate args result; Sent answer])
  /\ page_is_empty VNull = true
  /\ (forall rest, page_is_empty (VObj (("data", VArr []) :: rest)) = true)
  /\ (forall rest x l,
         page_is_empty (VObj (("data", VArr (x :: l)) :: rest)) = false)
  /\ (forall p, obj_get p "data" = None -> page_is_empty (VObj p) = true).
Proof.
  intros Hv Hvalid Hq Hc Hlist Ho. cbv zeta.
  destruct page_cases as (Hnull & _ & Hnone & Hsome & Hnodata).
  split; [|now repeat split].
  unfold object_or_empty, page_is_empty.
  unfold Controller.findAll. run_action.
  rewrite Hv. simpl. rewrite Hvalid, Hq, Hc. simpl. rewrite Hlist.
  destruct (truthy (body req)) eqn:Hbody.
  - rewrite Ho. simpl. cases; try reflexivity; exfalso; no_throw.
  - apply get_prop_falsy in Ho; [subst o|assumption|discriminate].
    simpl. cases; try reflexivity; exfalso; no_throw.
Qed.

Lemma findAll_page_witness :
  fst (handle (Controller.findAll Sample.db Sample.TaskE) Sample.first_page
              Sample.one_task)
  = Ok (success
          (VObj [("data", VArr [VObj Sample.a_task]);
                 ("paginator", VObj [("itemCount", VNum 1)])])).
Proof.
  destruct (@findAll_page _ Sample.db Sample.TaskE Sample.first_page
              Sample.one_task (mkValidation true EmptyString)
              (VObj [("title", VStr "write the report")])
              VUndefined VUndefined eq_refl eq_refl eq_refl eq_refl eq_refl
              eq_refl) as [Hrun _].
  rewrite Hrun. reflexivity.
Defined.

(** X8.  A filter that does not validate stops [findAll] and [getCount]
    before the store: the answer is a validation error carrying the
    message of the validator as it is, and no store call is made, whatever
    else the body holds. *)
Theorem invalid_filter_stops St (dbService : dbServiceT St) E req s :
  (forall v, validateFilterWithJoi E (body req) true = Ok v ->
             isValid v = false ->
             turned_down (Controller.findAll dbService E) req s
                         (validationError (validation_message v)))
  /\
  (forall v, validateFilterWithJoi E (body req) false = Ok v ->
             isValid v = false ->
             turned_down (Controller.getCount dbService E) req s
                         (validationError (validation_message v))).
Proof.
  unfold turned_down. split; intros v Hv Hinvalid.
  - unfold Controller.findAll. run_action. rewrite Hv. simpl.
    now rewrite Hinvalid.
  - unfold Controller.getCount. run_action. rewrite Hv. simpl.
    now rewrite Hinvalid.
Qed.

Lemma invalid_filter_stops_witness :
  turned_down (Controller.findAll Sample.db Sample.StrictE) Sample.count_only
              Sample.one_task (validationError "query is not allowed").
Proof.
  destruct (@invalid_filter_stops _ Sample.db Sample.StrictE Sample.count_only
              Sample.one_task) as [Hfind _].
  apply (Hfind (mkValidation false "query is not allowed")); reflexivity.
Defined.

(** X9.  Counting.  When the filter validates, [getCount] makes one
    [count] call with a copy of [req.body.where], or with the empty filter
    when [where] is absent, [null] or no object, and answers success with
    the count whatever it is. *)
Theorem getCount_run St (dbService : dbServiceT St) E req s v w :
  validateFilterWithJoi E (body req) false = Ok v ->
  isValid v = true ->
  get_prop (body req) "where" = Ok w ->
  calls_and_passes_on dbService (Controller.getCount dbService E) req s
    Db.count [VObj (object_or_empty w)] counted
  /\ (is_object w = false -> object_or_empty w = []).
Proof.
  intros Hv Hvalid Hw. split.
  - unfold calls_and_passes_on, passed_on, object_or_empty, counted.
    unfold Controller.getCount. run_action.
    rewrite Hv. simpl. rewrite Hvalid, Hw. simpl. cases; reflexivity.
  - intros Hno. unfold object_or_empty. now rewrite Hno.
Qed.

Lemma getCount_run_witness :
  calls_and_passes_on Sample.db (Controller.getCount Sample.db Sample.TaskE)
    Sample.count_all Sample.one_task Db.count [VObj []] counted.
Proof.
  destruct (@getCount_run _ Sample.db Sample.TaskE Sample.count_all
              Sample.one_task (mkValidation true EmptyString) VNull
              eq_refl eq_refl eq_refl) as [Hrun _].
  exact Hrun.
Defined.

(** X10.  Looking one record up.  Given an identifier that
    [ObjectId.isValid] accepts, [get] makes one [findOne] call with the
    query [{ _id: id }] and empty options, and answers success with the
    record found, or not found when the store found none. *)
Theorem get_run St (dbService : dbServiceT St) ObjectId_isValid req s id :
  get_prop (params req) "id" = Ok id ->
  ObjectId_isValid id = true ->
  calls_once dbService (Controller.get dbService ObjectId_isValid) req s
             Db.findOne [VObj (by_id_query id); VObj []] (fun v => v).
Proof.
  intros Hid Hvalid. unfold calls_once, reported, by_id_query.
  unfold Controller.get. run_action. rewrite Hid, Hvalid.
  cases; reflexivity.
Qed.

Lemma get_run_witness :
  calls_once Sample.db (Controller.get Sample.db Sample.isValid)
             (Sample.by_id (VStr Sample.an_id)) Sample.one_task
             Db.findOne [VObj (by_id_query (VStr Sample.an_id)); VObj []]
             (fun v => v).
Proof.
  apply (@get_run _ Sample.db Sample.isValid
           (Sample.by_id (VStr Sample.an_id)) Sample.one_task
           (VStr Sample.an_id)); reflexivity.
Defined.

(** ** Deleting *)

(** X11.  Deleting a list.  Given a non-empty array of identifiers,
    [deleteMany] makes one store call, [deleteMany] with the query
    [{ _id: { $in: ids } }], without reading [req.user] and without
    checking the elements of the array; it answers success with the count,
    and not found when the count is falsy (zero). *)
Theorem deleteMany_run St (dbService : dbServiceT St) req s ids :
  get_prop (body req) "ids" = Ok ids ->
  Controller.not_nonempty_array ids = false ->
  calls_once dbService (Controller.deleteMany dbService) req s
             Db.deleteMany [VObj (in_ids_query ids)] counted
  /\ reported counted (Ok (VNum 0)) = recordNotFound.
Proof.
  intros Hids Hlist. split; [|reflexivity].
  unfold calls_once, reported, in_ids_query, counted.
  unfold Controller.deleteMany. run_action. rewrite Hids, Hlist.
  destruct (nonempty_array ids Hlist) as (items & -> & _). simpl.
  cases; reflexivity.
Qed.

Lemma deleteMany_run_witness :
  calls_once Sample.db (Controller.deleteMany Sample.db)
             (Sample.anonymous (VObj [("ids", VArr [VNum 7])]) (VObj []))
             Sample.one_task
             Db.deleteMany [VObj (in_ids_query (VArr [VNum 7]))] counted.
Proof.
  destruct (@deleteMany_run _ Sample.db
              (Sample.anonymous (VObj [("ids", VArr [VNum 7])]) (VObj []))
              Sample.one_task (VArr [VNum 7]) eq_refl eq_refl) as [Hrun _].
  exact Hrun.
Defined.

(** ** Creating and updating *)

(** X12.  A payload that does not validate stops [add], [update] and
    [partialUpdate] before the store, with a validation error whose
    message is prefixed.  [add] validates the body as it came, before it
    reads [req.user]; [update] and [partialUpdate] validate the payload
    with [updatedBy] already attached. *)
Theorem invalid_payload_stops St (dbService : dbServiceT St) Date_parses E
  req s :
  (forall v,
      v = validateParamsWithJoi Date_parses
            (spread_obj (js_or (body req) (VObj []))) (schemaKeys E) ->
      isValid v = false ->
      turned_down (Controller.add dbService Date_parses E) req s
                  (validationError (Controller.invalid_parameters v)))
  /\
  (forall uid v,
      get_prop (user req) "id" = Ok uid ->
      v = validateParamsWithJoi Date_parses (update_payload (body req) uid)
            (updateSchemaKeys E) ->
      isValid v = false ->
      turned_down (Controller.update dbService Date_parses E) req s
                  (validationError (Controller.invalid_parameters v)))
  /\
  (forall id body' uid v,
      get_prop (params req) "id" = Ok id -> truthy id = true ->
      js_delete (body req) "addedBy" = Ok body' ->
      get_prop (user req) "id" = Ok uid ->
      v = validateParamsWithJoi Date_parses (update_payload body' uid)
            (updateSchemaKeys E) ->
      isValid v = false ->
      turned_down (Controller.partialUpdate dbService Date_parses E) req s
                  (validationError (Controller.invalid_parameters v))).
Proof.
  unfold turned_down, update_payload. split; [|split].
  - intros v -> Hinvalid. unfold Controller.add. run_action.
    now rewrite Hinvalid.
  - intros uid v Huid -> Hinvalid. unfold Controller.update. run_action.
    rewrite Huid. simpl. now rewrite Hinvalid.
  - intros id body' uid v Hid Hpresent Hbody Huid -> Hinvalid.
    unfold Controller.partialUpdate. run_action.
    rewrite Hid, Hpresent, Hbody, Huid. simpl. now rewrite Hinvalid.
Qed.

Lemma invalid_payload_stops_witness :
  exists m,
    turned_down (Controller.add Sample.db Sample.Date_parses Sample.TaskE)
                (Sample.anonymous (VObj [("title", VNum 3)]) (VObj []))
                Sample.one_task (validationError m).
Proof.
  destruct (@invalid_payload_stops _ Sample.db Sample.Date_parses Sample.TaskE
              (Sample.anonymous (VObj [("title", VNum 3)]) (VObj []))
              Sample.one_task) as [Hadd _].
  eexists. apply Hadd; reflexivity.
Defined.

(** A store call is the first of two events, or there is none. *)
Ltac the_call H :=
  simpl in H;
  repeat (destruct H as [H|H]; try discriminate; try contradiction);
  inversion H; subst.

(** X13.  Updates name the actor.  The payload every store call of
    [update] and of [partialUpdate] carries has [updatedBy] equal to
    [req.user.id], whatever [updatedBy] the body held; the payload of
    [bulkUpdate] has it too, unless it is the empty payload of a request
    without data. *)
Theorem updates_stamp_updatedBy St (dbService : dbServiceT St) Date_parses E
  req s op args r :
  (In (DbCall op args r)
      (trace (snd (handle (Controller.update dbService Date_parses E) req s)))
   \/
   In (DbCall op args r)
      (trace (snd (handle (Controller.partialUpdate dbService Date_parses E)
                          req s))) ->
   exists query payload uid,
     args = [VObj query; VObj payload] /\
     get_prop (user req) "id" = Ok uid /\
     obj_get payload "updatedBy" = Some uid)
  /\
  (In (DbCall op args r)
      (trace (snd (handle (Controller.bulkUpdate dbService) req s))) ->
   exists query payload,
     args = [VObj query; VObj payload] /\
     (payload = [] \/
      exists uid, get_prop (user req) "id" = Ok uid /\
                  obj_get payload "updatedBy" = Some uid)).
Proof.
  split.
  - intros [H|H]; revert H.
    + unfold Controller.update.
      cases; intros H; the_call H;
        eexists _, _, _; repeat split; eauto using obj_get_set_same.
    + unfold Controller.partialUpdate.
      cases; intros H; the_call H;
        eexists _, _, _; repeat split; eauto using obj_get_set_same.
  - unfold Controller.bulkUpdate.
    cases; intros H; the_call H; eexists _, _; (split; [reflexivity|]);
      first [now left | right; eexists; split; eauto using obj_get_set_same].
Qed.

Lemma updates_stamp_updatedBy_witness :
  exists query payload uid,
    [VObj [("_id", VStr Sample.an_id)];
     VObj [("updatedBy", VStr "5f1d7f3e9b1e8a0012345678")]]
    = [VObj query; VObj payload] /\
    get_prop Sample.alice "id" = Ok uid /\
    obj_get payload "updatedBy" = Some uid.
Proof.
  destruct (@updates_stamp_updatedBy _ Sample.db Sample.Date_parses
              Sample.TaskE
              (mkRequest (VObj [("updatedBy", VStr "eve")])
                         (VObj [("id", VStr Sample.an_id)]) Sample.alice)
              Sample.one_task Db.updateOne
              [VObj [("_id", VStr Sample.an_id)];
               VObj [("updatedBy", VStr "5f1d7f3e9b1e8a0012345678")]]
              (Ok (VObj [("_id", VStr Sample.an_id);
                         ("title", VStr "write the report");
                         ("addedBy", VStr "5f1d7f3e9b1e8a0012340000");
                         ("updatedBy", VStr "5f1d7f3e9b1e8a0012345678")])))
    as [H _].
  apply H. left. simpl. left. reflexivity.
Defined.

(** X14.  Inserting a list.  Given a body whose [data] is a non-empty
    array and a known caller, [bulkInsert] makes one [create] call with
    one draft for each item, in order, and answers success with a count.
    A draft is its item with [addedBy] set: the other fields are the
    item's own.  The count is the length of the array the store returned,
    and 0 when the store returned nothing. *)
Theorem bulkInsert_run St (dbService : dbServiceT St) req s items uid :
  truthy (body req) = true ->
  get_prop (body req) "data" = Ok (VArr items) ->
  items <> [] ->
  get_prop (user req) "id" = Ok uid ->
  calls_and_passes_on dbService (Controller.bulkInsert dbService) req s
    Db.create [VArr (drafts_of uid items)]
    (fun created => VObj [("count", created_count created)])
  /\ List.length (drafts_of uid items) = List.length items
  /\ (forall item k, k <> "addedBy" ->
        obj_get (obj_set "addedBy" uid (spread_obj item)) k
        = obj_get (spread_obj item) k)
  /\ (forall l, created_count (VArr l) = VNum (Z.of_nat (List.length l)))
  /\ created_count VNull = VNum 0
  /\ created_count VUndefined = VNum 0.
Proof.
  intros Hbody Hdata Hitems Huid.
  split; [|split; [|split; [|split; [|split]]]]; try reflexivity.
  - unfold calls_and_passes_on, passed_on, created_count, drafts_of.
    unfold Controller.bulkInsert. run_action.
    assert (Hlist : (Z.of_nat (length items) <? 1) = false).
    { apply Z.ltb_ge. destruct items; [contradiction|simpl; lia]. }
    rewrite Hbody, Hdata. simpl. rewrite Hlist. simpl.
    rewrite stamp_all, Huid.
    cases; try reflexivity; exfalso; no_throw.
  - apply length_map.
  - intros item k Hk. now apply obj_get_set_other.
  - intros l. unfold created_count, js_or. simpl.
    destruct l; reflexivity.
Qed.

Lemma bulkInsert_run_witness :
  calls_and_passes_on Sample.db (Controller.bulkInsert Sample.db)
    (Sample.with_body (VObj [("data", Sample.two_items)])) Sample.one_task
    Db.create
    [VArr [VObj [("title", VStr "a");
                 ("addedBy", VStr "5f1d7f3e9b1e8a0012345678")];
           VObj [("addedBy", VStr "5f1d7f3e9b1e8a0012345678")]]]
    (fun created => VObj [("count", created_count created)]).
Proof.
  destruct (@bulkInsert_run _ Sample.db
              (Sample.with_body (VObj [("data", Sample.two_items)]))
              Sample.one_task
              [VObj [("title", VStr "a"); ("addedBy", VStr "eve")]; VNum 3]
              (VStr "5f1d7f3e9b1e8a0012345678")
              eq_refl eq_refl) as [Hrun _].
  - discriminate.
  - reflexivity.
  - exact Hrun.
Defined.

(** X15.  Creating one record.  When the body validates and the caller is
    known, [add] builds the document from the body with [addedBy] set,
    makes one [create] call with it and answers success with whatever the
    store returned.  When the model constructor throws, the answer is the
    internal error with its message and the store is not called. *)
Theorem add_run St (dbService : dbServiceT St) Date_parses E req s uid :
  isValid (validateParamsWithJoi Date_parses
             (spread_obj (js_or (body req) (VObj []))) (schemaKeys E)) = true ->
  get_prop (user req) "id" = Ok uid ->
  let draft :=
    VObj (obj_set "addedBy" uid (spread_obj (js_or (body req) (VObj [])))) in
  (forall doc, Model_new E draft = Ok doc ->
     calls_and_passes_on dbService (Controller.add dbService Date_parses E)
       req s Db.create [doc] (fun v => v))
  /\
  (forall e, Model_new E draft = Throw e ->
     turned_down (Controller.add dbService Date_parses E) req s
                 (internalServerError (message e))).
Proof.
  intros Hvalid Huid. cbv zeta.
  unfold calls_and_passes_on, passed_on, turned_down. split.
  - intros doc Hdoc. unfold Controller.add. run_action.
    rewrite Hvalid, Huid. simpl. rewrite Hdoc. cases; reflexivity.
  - intros e He. unfold Controller.add. run_action.
    rewrite Hvalid, Huid. simpl. now rewrite He.
Qed.

Lemma add_run_witness :
  calls_and_passes_on Sample.db
    (Controller.add Sample.db Sample.Date_parses Sample.TaskE)
    (Sample.with_body (VObj [("title", VStr "x")])) Sample.one_task
    Db.create
    [VObj [("title", VStr "x"); ("addedBy", VStr "5f1d7f3e9b1e8a0012345678")]]
    (fun v => v).
Proof.
  destruct (@add_run _ Sample.db Sample.Date_parses Sample.TaskE
              (Sample.with_body (VObj [("title", VStr "x")])) Sample.one_task
              (VStr "5f1d7f3e9b1e8a0012345678") eq_refl eq_refl)
    as [Hrun _].
  apply Hrun. reflexivity.
Defined.

(** ** The caller and the body *)

(** X16.  Who needs [req.user].  [findAll], [get], [getCount], [delete]
    and [deleteMany] never read it: their run is the same whoever the
    caller is, set or not.  The actions that name the actor fail without
    it: when [req.user.id] cannot be read, [update] always answers with
    the internal error, and so do [softDelete] given an identifier,
    [softDeleteMany] and [bulkInsert] given a non-empty list and [add]
    given a valid body, all before any store call. *)
Theorem actor_is_read_only_to_stamp St (dbService : dbServiceT St)
  ObjectId_isValid Date_parses E :
  (ignores_user (Controller.findAll dbService E) /\
   ignores_user (Controller.get dbService ObjectId_isValid) /\
   ignores_user (Controller.getCount dbService E) /\
   ignores_user (Controller.delete dbService) /\
   ignores_user (Controller.deleteMany dbService))
  /\
  forall req s e,
    get_prop (user req) "id" = Throw e ->
    let failed := internalServerError (message e) in
    turned_down (Controller.update dbService Date_parses E) req s failed /\
    (forall id, get_prop (params req) "id" = Ok id -> truthy id = true ->
       turned_down (Controller.softDelete dbService) req s failed) /\
    (forall ids, get_prop (body req) "ids" = Ok ids ->
       Controller.not_nonempty_array ids = false ->
       turned_down (Controller.softDeleteMany dbService) req s failed) /\
    (forall data, truthy (body req) = true ->
       get_prop (body req) "data" = Ok data ->
       Controller.not_nonempty_array data = false ->
       turned_down (Controller.bulkInsert dbService) req s failed) /\
    (isValid (validateParamsWithJoi Date_parses
                (spread_obj (js_or (body req) (VObj []))) (schemaKeys E))
     = true ->
     turned_down (Controller.add dbService Date_parses E) req s failed).
Proof.
  split.
  - repeat split; intros b p u u' s; reflexivity.
  - intros req s e Huid. cbv zeta. unfold turned_down.
    split; [|split; [|split; [|split]]].
    + unfold Controller.update. run_action. now rewrite Huid.
    + intros id Hid Hpresent. unfold Controller.softDelete. run_action.
      now rewrite Hid, Hpresent, Huid.
    + intros ids Hids Hlist. unfold Controller.softDeleteMany. run_action.
      rewrite Hids, Hlist, Huid.
      destruct (nonempty_array ids Hlist) as (items & -> & _). reflexivity.
    + intros data Hbody Hdata Hlist. unfold Controller.bulkInsert.
      run_action. rewrite Hbody, Hdata, Hlist. simpl.
      destruct (nonempty_array data Hlist) as (items & -> & Hitems). simpl.
      rewrite stamp_all, Huid.
      destruct items; [contradiction|reflexivity].
    + intros Hvalid. unfold Controller.add. run_action.
      now rewrite Hvalid, Huid.
Qed.

Lemma actor_is_read_only_to_stamp_witness :
  exists m,
    turned_down (Controller.softDelete Sample.db)
                (Sample.anonymous (VObj []) (VObj [("id", VStr Sample.an_id)]))
                Sample.one_task (internalServerError m).
Proof.
  destruct (@actor_is_read_only_to_stamp _ Sample.db Sample.isValid
              Sample.Date_parses Sample.TaskE) as [_ H].
  destruct (H (Sample.anonymous (VObj []) (VObj [("id", VStr Sample.an_id)]))
              Sample.one_task
              (Error "Cannot read properties of undefined (reading 'id')")
              eq_refl) as (_ & Hsoft & _).
  eexists. apply (Hsoft (VStr Sample.an_id)); reflexivity.
Defined.

(** X17.  Updating without a body.  [update] spreads a missing body as
    the empty object: when the payload, which is [updatedBy] alone then,
    validates, it calls [updateOne] with it.  [partialUpdate] deletes
    [addedBy] from the body first and cannot do so from [undefined] or
    [null]: it answers with the internal error and calls no store
    operation. *)
Theorem updating_without_body St (dbService : dbServiceT St) Date_parses E
  req s id :
  body req = VUndefined \/ body req = VNull ->
  get_prop (params req) "id" = Ok id ->
  (forall uid,
      get_prop (user req) "id" = Ok uid ->
      isValid (validateParamsWithJoi Date_parses [("updatedBy", uid)]
                                     (updateSchemaKeys E)) = true ->
      calls_once dbService (Controller.update dbService Date_parses E) req s
                 Db.updateOne
                 [VObj (by_id_query id); VObj [("updatedBy", uid)]]
                 (fun v => v))
  /\
  fst (handle (Controller.partialUpdate dbService Date_parses E) req s)
  = Ok (internalServerError "Cannot convert undefined or null to object")
  /\
  db_calls (trace (snd (handle (Controller.partialUpdate dbService
                                  Date_parses E) req s))) = []
  /\
  store (snd (handle (Controller.partialUpdate dbService Date_parses E)
                     req s)) = s.
Proof.
  intros Hbody Hid. split.
  - intros uid Huid Hvalid. unfold calls_once, reported, by_id_query.
    unfold Controller.update. run_action. rewrite Huid.
    destruct Hbody as [-> | ->]; simpl; simpl in Hvalid;
      rewrite Hvalid, Hid; cases; reflexivity.
  - unfold Controller.partialUpdate. run_action. rewrite Hid.
    destruct Hbody as [-> | ->]; destruct (truthy id); simpl; auto.
Qed.

Lemma updating_without_body_witness :
  fst (handle (Controller.partialUpdate Sample.db Sample.Date_parses
                                        Sample.TaskE)
              (mkRequest VUndefined (VObj [("id", VStr Sample.an_id)])
                         Sample.alice)
              Sample.one_task)
  = Ok (internalServerError "Cannot convert undefined or null to object").
Proof.
  destruct (@updating_without_body _ Sample.db Sample.Date_parses Sample.TaskE
              (mkRequest VUndefined (VObj [("id", VStr Sample.an_id)])
                         Sample.alice)
              Sample.one_task (VStr Sample.an_id)) as (_ & H & _).
  - left. reflexivity.
  - reflexivity.
  - exact H.
Defined.

(** [partialUpdate] at a body that names a creator. *)
Lemma partialUpdate_strips_addedBy_witness :
  exists query data,
    Db.updateOne = Db.updateOne /\
    [VObj [("_id", VStr Sample.an_id)];
     VObj [("updatedBy", VStr "5f1d7f3e9b1e8a0012345678")]]
    = [VObj query; VObj data] /\
    obj_get data "addedBy" = None.
Proof.
  apply (@partialUpdate_strips_addedBy _ Sample.db Sample.Date_parses
           Sample.TaskE Sample.update_by_eve Sample.one_task Db.updateOne
           [VObj [("_id", VStr Sample.an_id)];
            VObj [("updatedBy", VStr "5f1d7f3e9b1e8a0012345678")]]
           (Ok (VObj [("_id", VStr Sample.an_id);
                      ("title", VStr "write the report");
                      ("addedBy", VStr "5f1d7f3e9b1e8a0012340000");
                      ("updatedBy", VStr "5f1d7f3e9b1e8a0012345678")]))).
  simpl. left. reflexivity.
Defined.

(** X19.  Updating many.  Given a body whose [data] is an object (an
    array counts as one) and a known caller, [bulkUpdate] makes one
    [updateMany] call with the filter the caller gave and the data with
    [updatedBy] set, unvalidated, and answers success with the count, or
    not found when the count is falsy. *)
Theorem bulkUpdate_run St (dbService : dbServiceT St) req s data uid :
  truthy (body req) = true ->
  get_prop (body req) "data" = Ok data ->
  is_object data = true ->
  get_prop (user req) "id" = Ok uid ->
  calls_once dbService (Controller.bulkUpdate dbService) req s Db.updateMany
             [VObj (given_filter req); VObj (update_payload data uid)]
             counted.
Proof.
  intros Hbody Hdata Hobject Huid.
  destruct (get_prop_truthy (body req) "filter" Hbody) as [f Hf].
  unfold calls_once, reported, counted, update_payload, given_filter.
  unfold Controller.bulkUpdate. run_action.
  rewrite Hbody, Hf, Hdata, Hobject, Huid. simpl. cases; reflexivity.
Qed.

Lemma bulkUpdate_run_witness :
  calls_once Sample.db (Controller.bulkUpdate Sample.db)
             (Sample.with_body (VObj [("data", VArr [VStr "x"])]))
             Sample.one_task Db.updateMany
             [VObj [];
              VObj [("0", VStr "x");
                    ("updatedBy", VStr "5f1d7f3e9b1e8a0012345678")]]
             counted.
Proof.
  apply (@bulkUpdate_run _ Sample.db
           (Sample.with_body (VObj [("data", VArr [VStr "x"])]))
           Sample.one_task (VArr [VStr "x"])
           (VStr "5f1d7f3e9b1e8a0012345678"));
    reflexivity.
Defined.

(** ** The two schemas of the Task entity *)

Lemma field_errors_app Date_parses fields fields' payload :
  field_errors Date_parses (fields ++ fields') payload
  = field_errors Date_parses fields payload
    ++ field_errors Date_parses fields' payload.
Proof. apply flat_map_app. Qed.

(** X20.  [updateSchemaKeys] is [schemaKeys] with [_id].  A payload gets
    the same verdict from both schemas unless it has an [_id]; one whose
    [_id] is a string that is not 24 hexadecimal digits is invalid for an
    update; and the creation schema does not look at [_id] at all, so the
    [_id] of a body never makes [add] turn it down. *)
Theorem schemas_differ_by_id Date_parses payload :
  (obj_get payload "_id" = None \/ obj_get payload "_id" = Some VUndefined ->
   validateParamsWithJoi Date_parses payload Task_updateSchemaKeys
   = validateParamsWithJoi Date_parses payload Task_schemaKeys)
  /\
  (forall id, obj_get payload "_id" = Some (VStr id) ->
              is_hex24 id = false ->
              isValid (validateParamsWithJoi Date_parses payload
                                             Task_updateSchemaKeys) = false)
  /\
  (forall id,
      validateParamsWithJoi Date_parses (obj_set "_id" id payload)
                            Task_schemaKeys
      = validateParamsWithJoi Date_parses payload Task_schemaKeys).
Proof.
  split; [|split].
  - intros Hid. unfold validateParamsWithJoi, Task_updateSchemaKeys,
      Task_schemaKeys, unknown_errors. cbn [keys unknown].
    rewrite field_errors_app.
    replace (field_errors Date_parses [("_id", mkField string_hex24 [])]
                          payload) with (@nil string).
    + now rewrite !app_nil_r.
    + unfold field_errors. cbn [flat_map fst].
      destruct Hid as [-> | ->]; reflexivity.
  - intros id Hid Hbad. unfold validateParamsWithJoi, Task_updateSchemaKeys,
      unknown_errors. cbn [keys unknown].
    rewrite field_errors_app, app_nil_r.
    replace (field_errors Date_parses [("_id", mkField string_hex24 [])]
                          payload)
      with [(dquote ++ "_id" ++ dquote ++ " must be "
             ++ type_name string_hex24)%string].
    + destruct (field_errors Date_parses Task_fields payload); reflexivity.
    + unfold field_errors. cbn [flat_map fst snd]. rewrite Hid.
      unfold field_ok. cbn [allowed value_mem existsb field_type type_ok orb].
      now rewrite Hbad.
  - intros id. unfold validateParamsWithJoi, unknown_errors.
    cbn [keys unknown Task_schemaKeys].
    now rewrite field_errors_unknown_key.
Qed.

Lemma schemas_differ_by_id_witness :
  isValid (validateParamsWithJoi Sample.Date_parses
             [("_id", VStr "not-24-hex")] Task_updateSchemaKeys) = false
  /\
  isValid (validateParamsWithJoi Sample.Date_parses
             [("_id", VStr "not-24-hex")] Task_schemaKeys) = true.
Proof.
  destruct (schemas_differ_by_id Sample.Date_parses
              [("_id", VStr "not-24-hex")]) as (_ & Hbad & _).
  split; [|reflexivity].
  apply (Hbad "not-24-hex"); reflexivity.
Defined.
